(** * The JNI bridge of sqlitecloud-kotlin (src/main/cpp/sqlitecloud.cpp)

    A shallow embedding of the bridge between the JVM host and the native
    SQCloud client library.  Host values are modelled as the JNI sees them,
    native values as C sees them, and each exported function as a program
    that acquires memory, calls the native library and calls back into the
    host.  The native library and the JVM are external: the library is an
    arbitrary oracle, the JNI functions follow the JNI specification. *)

From Stdlib Require Import ZArith String List Bool Lia Permutation.
Import ListNotations.
Open Scope Z_scope.

(** ** Native values *)

(** A native address; the null pointer is address 0. *)
Definition pointer := Z.
Definition nullptr : pointer := 0.

(** [sizeof(void * )] on a 64-bit target. *)
Definition sizeof_pointer : Z := 8.

(** C integer conversions, written out as wrap-around on [Z]. *)
Definition uint8_t (x : Z) : Z := x mod 2 ^ 8.
Definition uint32_t (x : Z) : Z := x mod 2 ^ 32.
Definition int32_t (x : Z) : Z := (x + 2 ^ 31) mod 2 ^ 32 - 2 ^ 31.
Definition int64_t (x : Z) : Z := (x + 2 ^ 63) mod 2 ^ 64 - 2 ^ 63.

(** [const char *] made by the bridge from a host string: [None] is the
    null pointer, [Some bytes] points at these bytes followed by NUL. *)
Definition cstring := option (list Z).

(** [char *] handed out by the native library: where it points, and the
    bytes found there up to the terminating NUL. *)
Record char_ptr := { address : pointer; bytes : list Z }.

(** ** Host values *)

Definition JNIEnv := Z.
Definition jboolean := Z.
Definition jint := Z.
Definition jlong := Z.
Definition jsize := Z.
(** A [jdouble] is carried as its IEEE 754 binary64 bit pattern: the bridge
    only moves doubles, it never computes with them. *)
Definition jdouble := Z.
(** A [jstring] is the null reference or a sequence of UTF-16 code units. *)
Definition jstring := option (list Z).

Inductive jobject : Type :=
| null
| DirectByteBuffer (buffer_address : pointer) (capacity : jlong)
| JavaString (units : list Z)
| JavaInteger (value : jint)
| JavaObject (identity : Z).

(** What an exported function hands back to the host. *)
Inductive jvalue : Type :=
| void
| of_jboolean (b : jboolean)
| of_jint (n : jint)
| of_jlong (n : jlong)
| of_jdouble (d : jdouble)
| of_jstring (s : jstring)
| of_jobject (o : jobject).

(** The [SQLiteCloudBridge] instance a native method is called on: the
    reference [thiz] and the current value of its [connection] field. *)
Record SQLiteCloudBridge := { reference : Z; connection : jobject }.

(** ** The JNI functions the bridge uses

    These belong to the JVM, not to the repository; they follow the JNI
    specification.  Allocation inside the JVM is taken to succeed. *)
Module JNI.

(** Null and objects that are no direct buffer have no address. *)
Definition GetDirectBufferAddress (env : JNIEnv) (buf : jobject) : pointer :=
  match buf with
  | DirectByteBuffer a _ => a
  | _ => nullptr
  end.

(** The capacity of a direct buffer, -1 for anything else. *)
Definition GetDirectBufferCapacity (env : JNIEnv) (buf : jobject) : jlong :=
  match buf with
  | DirectByteBuffer _ c => c
  | _ => -1
  end.

Definition NewDirectByteBuffer (env : JNIEnv) (a : pointer) (c : jlong) : jobject :=
  DirectByteBuffer a c.

(** [NewObject(Integer.class, Integer.<init>(I), n)]. *)
Definition NewInteger (env : JNIEnv) (n : Z) : jobject :=
  JavaInteger (int32_t n).

(** Modified UTF-8 of one UTF-16 code unit: one byte for 0x01..0x7F, two
    bytes for 0x00 and 0x80..0x7FF, three bytes above. *)
Definition utf_of_unit (u : Z) : list Z :=
  if (1 <=? u) && (u <=? 0x7F) then [u]
  else if u <=? 0x7FF then
    [Z.lor 0xC0 (Z.shiftr u 6); Z.lor 0x80 (Z.land u 0x3F)]
  else
    [Z.lor 0xE0 (Z.shiftr u 12);
     Z.lor 0x80 (Z.land (Z.shiftr u 6) 0x3F);
     Z.lor 0x80 (Z.land u 0x3F)].

(** The bytes [GetStringUTFChars] points at. *)
Definition utf_of_units (s : list Z) : list Z := flat_map utf_of_unit s.

(** The UTF-16 code units of a modified UTF-8 byte sequence; a sequence cut
    short ends the string. *)
Fixpoint units_of_utf (bs : list Z) : list Z :=
  match bs with
  | [] => []
  | b1 :: r1 =>
      if b1 <? 0x80 then b1 :: units_of_utf r1
      else if b1 <? 0xE0 then
        match r1 with
        | b2 :: r2 =>
            Z.lor (Z.shiftl (Z.land b1 0x1F) 6) (Z.land b2 0x3F) :: units_of_utf r2
        | [] => []
        end
      else
        match r1 with
        | b2 :: b3 :: r3 =>
            Z.lor (Z.shiftl (Z.land b1 0x0F) 12)
              (Z.lor (Z.shiftl (Z.land b2 0x3F) 6) (Z.land b3 0x3F))
            :: units_of_utf r3
        | _ => []
        end
  end.

(** [NewStringUTF]: a null pointer gives the null reference. *)
Definition NewStringUTF (env : JNIEnv) (p : char_ptr) : jstring :=
  if address p =? nullptr then None else Some (units_of_utf (bytes p)).

(** [GetStringLength]: the number of UTF-16 code units. *)
Definition GetStringLength (env : JNIEnv) (s : list Z) : jsize :=
  Z.of_nat (length s).

(** [GetStringUTFLength]: the number of bytes of the modified UTF-8 form. *)
Definition GetStringUTFLength (env : JNIEnv) (s : list Z) : jsize :=
  Z.of_nat (length (utf_of_units s)).

Definition GetArrayLength {A : Type} (env : JNIEnv) (a : list A) : jsize :=
  Z.of_nat (length a).

End JNI.

(** ** Pointer boxes *)

(** [wrapPointer]: a native pointer boxed as a direct byte buffer. *)
Definition wrapPointer (env : JNIEnv) (p : pointer) : jobject :=
  if p =? nullptr then null
  else JNI.NewDirectByteBuffer env p sizeof_pointer.

Definition unwrapPointer (env : JNIEnv) (wrappedPointer : jobject) : pointer :=
  JNI.GetDirectBufferAddress env wrappedPointer.

Definition unwrapResult (env : JNIEnv) (wrappedResult : jobject) : pointer :=
  unwrapPointer env wrappedResult.

Definition unwrapBlob (env : JNIEnv) (wrappedBlob : jobject) : pointer :=
  unwrapPointer env wrappedBlob.

Definition unwrapVM (env : JNIEnv) (wrappedVM : jobject) : pointer :=
  unwrapPointer env wrappedVM.

Definition getConnection (env : JNIEnv) (thiz : SQLiteCloudBridge) : pointer :=
  JNI.GetDirectBufferAddress env (connection thiz).

(** ** Memory the bridge acquires *)

(** [struct PubSubData]: the JNI environment and the bridge reference the
    trampoline [pubSubCallback] calls back into. *)
Module PubSubData.
Record t := { env : JNIEnv; thiz : Z }.
End PubSubData.

(** A block the bridge acquired and has not given back. *)
Inductive Block : Type :=
| new_PubSubData (d : PubSubData.t)
| calloc (count size : Z)
| StringUTFChars (chars : list Z)
| IntArrayElements (elements : list Z).

(** Blocks are kept in the order they were acquired; a block's address is
    its position, counted from 1 so that no block sits at the null pointer. *)
Definition Heap := list Block.

Definition block_address (position : nat) : pointer := Z.of_nat position + 1.

Definition block_at (heap : Heap) (p : pointer) : option Block :=
  if p <=? 0 then None else nth_error heap (Z.to_nat (p - 1)).

(** ** The native client library (sqcloud.h) *)

(** sqcloud.h belongs to the native library.  Its constants are parameters
    of the development; its functions are known by their call sites. *)
Class sqcloud_h := { VALUE_BLOB : Z }.

(** [SQCloudConfig] as [doConnect] initialises it; members the initialiser
    does not name are zero. *)
Module SQCloudConfig.
Record t := {
  username : cstring;
  password : cstring;
  database : cstring;
  timeout : Z;
  family : Z;
  compression : bool;
  sqlite_mode : bool;
  zero_text : bool;
  password_hashed : bool;
  nonlinearizable : bool;
  db_memory : bool;
  no_blob : bool;
  db_create : bool;
  max_data : Z;
  max_rows : Z;
  max_rowset : Z;
  tls_root_certificate : cstring;
  tls_certificate : cstring;
  tls_certificate_key : cstring;
  insecure : bool
}.

(** The boolean members, in declaration order. *)
Definition boolean_flags (c : t) : list bool :=
  [compression c; sqlite_mode c; zero_text c; password_hashed c;
   nonlinearizable c; db_memory c; no_blob c; db_create c; insecure c].

(** The integer members, in declaration order. *)
Definition integer_fields (c : t) : list Z :=
  [timeout c; family c; max_data c; max_rows c; max_rowset c].

(** The string members that may be left out, in declaration order. *)
Definition optional_strings (c : t) : list cstring :=
  [database c; tls_root_certificate c; tls_certificate c; tls_certificate_key c].
End SQCloudConfig.

(** A native function the bridge hands to the library as a callback. *)
Inductive native_function : Type :=
| address_of_pubSubCallback.

(** One element of the [values] array of [SQCloudExecArray]: the address of
    a direct buffer, or the characters of a converted string. *)
Inductive param_ptr : Type :=
| buffer_ptr (a : pointer)
| chars_ptr (s : cstring).

(** A call of the native API, with the values of its argument expressions;
    their conversion to the parameter types of sqcloud.h happens in the
    callee. *)
Inductive SQCloud : Type :=
| SQCloudConnect (hostname : cstring) (port : Z) (config : SQCloudConfig.t)
| SQCloudDisconnect (connection : pointer)
| SQCloudIsError (connection : pointer)
| SQCloudIsSQLiteError (connection : pointer)
| SQCloudErrorCode (connection : pointer)
| SQCloudErrorMsg (connection : pointer)
| SQCloudExtendedErrorCode (connection : pointer)
| SQCloudErrorOffset (connection : pointer)
| SQCloudVMErrorCode (vm : pointer)
| SQCloudVMErrorMsg (vm : pointer)
| SQCloudSetPubSubCallback (connection : pointer) (callback : native_function) (data : pointer)
| SQCloudSetPubSubOnly (connection : pointer)
| SQCloudUUID (connection : pointer)
| SQCloudExec (connection : pointer) (command : cstring)
| SQCloudExecArray (connection : pointer) (command : cstring)
    (values : list param_ptr) (len : list Z) (types : list Z) (n : Z)
| SQCloudResultFree (result : pointer)
| SQCloudResultType (result : pointer)
| SQCloudResultInt32 (result : pointer)
| SQCloudResultInt64 (result : pointer)
| SQCloudResultDouble (result : pointer)
| SQCloudResultBuffer (result : pointer)
| SQCloudResultLen (result : pointer)
| SQCloudArrayCount (result : pointer)
| SQCloudArrayValueType (result : pointer) (index : Z)
| SQCloudArrayInt64Value (result : pointer) (index : Z)
| SQCloudArrayDoubleValue (result : pointer) (index : Z)
| SQCloudArrayValue (result : pointer) (index : Z)
| SQCloudRowsetRows (result : pointer)
| SQCloudRowsetCols (result : pointer)
| SQCloudRowsetColumnName (result : pointer) (col : Z)
| SQCloudRowsetValueType (result : pointer) (row col : Z)
| SQCloudRowsetInt64Value (result : pointer) (row col : Z)
| SQCloudRowsetDoubleValue (result : pointer) (row col : Z)
| SQCloudRowsetValue (result : pointer) (row col : Z)
| SQCloudUploadDatabase (connection : pointer) (dbname key : cstring)
    (xdata : jobject) (dbsize : Z) (xCallback : jobject)
| SQCloudDownloadDatabase (connection : pointer) (dbname : cstring)
    (xdata : jobject) (xCallback : jobject)
| SQCloudBlobOpen (connection : pointer) (dbname tablename colname : cstring)
    (rowid : Z) (wrflag : jboolean)
| SQCloudBlobReOpen (blob : pointer) (rowid : Z)
| SQCloudBlobClose (blob : pointer)
| SQCloudBlobBytes (blob : pointer)
| SQCloudBlobRead (blob : pointer) (buffer : pointer) (blen : Z) (offset : Z)
| SQCloudBlobWrite (blob : pointer) (buffer : pointer) (blen : Z) (offset : Z)
| SQCloudVMBindInt (vm : pointer) (index : Z) (value : Z)
| SQCloudVMBindInt64 (vm : pointer) (index : Z) (value : Z)
| SQCloudVMBindDouble (vm : pointer) (index : Z) (value : jdouble)
| SQCloudVMBindText (vm : pointer) (index : Z) (value : cstring) (len : Z)
| SQCloudVMBindBlob (vm : pointer) (index : Z) (value : pointer) (len : Z)
| SQCloudVMBindZeroBlob (vm : pointer) (index : Z) (len : Z)
| SQCloudVMBindNull (vm : pointer) (index : Z)
| SQCloudVMCompile (connection : pointer) (sql : cstring) (len : Z) (tail : pointer)
| SQCloudVMStep (vm : pointer)
| SQCloudVMClose (vm : pointer)
| SQCloudVMColumnCount (vm : pointer)
| SQCloudVMLastRowID (vm : pointer)
| SQCloudVMChanges (vm : pointer)
| SQCloudVMTotalChanges (vm : pointer)
| SQCloudVMIsReadOnly (vm : pointer)
| SQCloudVMIsExplain (vm : pointer)
| SQCloudVMIsFinalized (vm : pointer)
| SQCloudVMBindParameterCount (vm : pointer)
| SQCloudVMBindParameterIndex (vm : pointer) (name : cstring)
| SQCloudVMBindParameterName (vm : pointer) (index : Z)
| SQCloudVMColumnType (vm : pointer) (index : Z)
| SQCloudVMResult (vm : pointer)
| SQCloudVMColumnInt64 (vm : pointer) (index : Z)
| SQCloudVMColumnDouble (vm : pointer) (index : Z)
| SQCloudVMColumnText (vm : pointer) (index : Z)
| SQCloudVMColumnBlob (vm : pointer) (index : Z).

(** What a call gives back: its return value, paired with what it stores
    through a [uint32_t *] length parameter when it has one.  The return
    types are read off the call sites: a pointer where the bridge boxes or
    unwraps the value, a string where it makes a host string of it, [bool]
    where it returns a [jboolean], an integer elsewhere. *)
Definition reply (c : SQCloud) : Type :=
  match c with
  | SQCloudConnect _ _ _ | SQCloudSetPubSubOnly _ | SQCloudExec _ _
  | SQCloudExecArray _ _ _ _ _ _ | SQCloudBlobOpen _ _ _ _ _ _
  | SQCloudVMCompile _ _ _ _ | SQCloudVMResult _ => pointer
  | SQCloudDisconnect _ | SQCloudSetPubSubCallback _ _ _
  | SQCloudResultFree _ => unit
  | SQCloudIsError _ | SQCloudIsSQLiteError _
  | SQCloudUploadDatabase _ _ _ _ _ _ | SQCloudDownloadDatabase _ _ _ _
  | SQCloudBlobReOpen _ _ | SQCloudBlobClose _
  | SQCloudVMBindInt _ _ _ | SQCloudVMBindInt64 _ _ _
  | SQCloudVMBindDouble _ _ _ | SQCloudVMBindText _ _ _ _
  | SQCloudVMBindBlob _ _ _ _ | SQCloudVMBindZeroBlob _ _ _
  | SQCloudVMBindNull _ _ | SQCloudVMClose _
  | SQCloudVMIsReadOnly _ | SQCloudVMIsFinalized _ => bool
  | SQCloudErrorMsg _ | SQCloudVMErrorMsg _ | SQCloudUUID _
  | SQCloudResultBuffer _ | SQCloudVMBindParameterName _ _ => char_ptr
  | SQCloudArrayValue _ _ | SQCloudRowsetColumnName _ _
  | SQCloudRowsetValue _ _ _ | SQCloudVMColumnText _ _ => char_ptr * Z
  | SQCloudVMColumnBlob _ _ => pointer * Z
  | _ => Z
  end.

(** ** Calls back into the host

    Native code runs on a thread of the JVM.  A [JNIEnv] may be used on its
    own thread only.  The references a native method is called with, its
    receiver [thiz] among them, are local: they are live until that method
    returns, and the JVM frees them then.  A host call through a [JNIEnv]
    of another thread, or on a reference that is no longer live, leaves the
    contract of the JNI. *)

Record jmethodID := { method_name : string; method_signature : string }.

(** [env->CallVoidMethod(receiver, env->GetMethodID(env->GetObjectClass(receiver),
    name, signature), argument)]. *)
Inductive HostCall : Type :=
| CallVoidMethod (env : JNIEnv) (receiver : Z) (method : jmethodID)
    (argument : jobject).

(** The JVM as native code finds it: the [JNIEnv] of the thread the code
    runs on, when the thread has one, and the references live there. *)
Record JVM := { current_env : option JNIEnv; live_references : list Z }.

Definition permitted (jvm : JVM) (u : HostCall) : bool :=
  match u with
  | CallVoidMethod env receiver _ _ =>
      match current_env jvm with
      | Some current =>
          (env =? current) && existsb (Z.eqb receiver) (live_references jvm)
      | None => false
      end
  end.

(** The JVM while it runs a native method of [thiz] on the thread of
    [env]. *)
Definition native_method (env : JNIEnv) (thiz : SQLiteCloudBridge) : JVM :=
  {| current_env := Some env; live_references := [reference thiz] |}.

(** The JVM, in whatever state, once the native method called on [thiz] has
    returned: the local reference to its receiver is freed. *)
Definition returned_from (thiz : SQLiteCloudBridge) (jvm : JVM) : JVM :=
  {| current_env := current_env jvm;
     live_references :=
       filter (fun r => negb (r =? reference thiz)) (live_references jvm) |}.

(** ** Programs of the bridge *)

(** What a bridge function does, as a tree: it returns, leaves the contract
    of the JNI ([Undefined]), acquires a block, reads a [PubSubData] block,
    calls the native library, or calls a host method. *)
Inductive Prog (A : Type) : Type :=
| Ret (a : A)
| Undefined
| Acquire (b : Block) (k : pointer -> Prog A)
| Deref (p : pointer) (k : PubSubData.t -> Prog A)
| Native (c : SQCloud) (k : reply c -> Prog A)
| Upcall (u : HostCall) (k : Prog A).

Arguments Ret {A} a.
Arguments Undefined {A}.
Arguments Acquire {A} b k.
Arguments Deref {A} p k.
Arguments Native {A} c k.
Arguments Upcall {A} u k.

Fixpoint bind {A B : Type} (p : Prog A) (f : A -> Prog B) : Prog B :=
  match p with
  | Ret a => f a
  | Undefined => Undefined
  | Acquire b k => Acquire b (fun a => bind (k a) f)
  | Deref a k => Deref a (fun d => bind (k d) f)
  | Native c k => Native c (fun r => bind (k r) f)
  | Upcall u k => Upcall u (bind k f)
  end.

Definition acquire (b : Block) : Prog pointer := Acquire b Ret.
Definition deref (p : pointer) : Prog PubSubData.t := Deref p Ret.
Definition native (c : SQCloud) : Prog (reply c) := Native c Ret.
Definition upcall (u : HostCall) : Prog unit := Upcall u (Ret tt).

Declare Scope prog_scope.
Delimit Scope prog_scope with prog.
Notation "x <- p ;; q" := (bind p (fun x => q))
  (at level 61, p at next level, right associativity) : prog_scope.
Notation "' pat <- p ;; q" := (bind p (fun x => let 'pat := x in q))
  (at level 61, pat pattern, p at next level, right associativity) : prog_scope.
Notation "p ;; q" := (bind p (fun _ => q))
  (at level 61, right associativity) : prog_scope.
Open Scope prog_scope.

(** ** Running a program against a native library *)

(** The native library is external: any state [L] and any way of answering
    calls from it. *)
Definition Library (L : Type) : Type := forall c : SQCloud, L -> reply c * L.

Inductive Event : Type :=
| called (c : SQCloud)
| upcalled (u : HostCall).

Record Outcome (A L : Type) : Type := {
  returned : option A;
  trace : list Event;
  heap_after : Heap;
  library_after : L
}.

Arguments returned {A L} o.
Arguments trace {A L} o.
Arguments heap_after {A L} o.
Arguments library_after {A L} o.

Definition after {A L : Type} (e : Event) (o : Outcome A L) : Outcome A L :=
  {| returned := returned o;
     trace := e :: trace o;
     heap_after := heap_after o;
     library_after := library_after o |}.

Definition stop {A L : Type} (a : option A) (heap : Heap) (l : L) : Outcome A L :=
  {| returned := a; trace := []; heap_after := heap; library_after := l |}.

(** [returned] is [None] exactly when the program left the JNI contract. *)
Fixpoint run {A L : Type} (jvm : JVM) (lib : Library L) (p : Prog A)
  (heap : Heap) (l : L) : Outcome A L :=
  match p with
  | Ret a => stop (Some a) heap l
  | Undefined => stop None heap l
  | Acquire b k => run jvm lib (k (block_address (length heap))) (heap ++ [b]) l
  | Deref a k =>
      match block_at heap a with
      | Some (new_PubSubData d) => run jvm lib (k d) heap l
      | _ => stop None heap l
      end
  | Native c k =>
      let (r, l') := lib c l in after (called c) (run jvm lib (k r) heap l')
  | Upcall u k =>
      if permitted jvm u then after (upcalled u) (run jvm lib k heap l)
      else stop None heap l
  end.

(** The native calls of a trace, in order. *)
Definition calls (t : list Event) : list SQCloud :=
  flat_map (fun e => match e with called c => [c] | upcalled _ => [] end) t.

(** ** Conversions at the call boundary *)

Definition GetStringUTFChars (env : JNIEnv) (units : list Z) : Prog (list Z) :=
  acquire (StringUTFChars (JNI.utf_of_units units)) ;;
  Ret (JNI.utf_of_units units).

Definition GetIntArrayElements (env : JNIEnv) (array : list Z) : Prog (list Z) :=
  acquire (IntArrayElements array) ;;
  Ret array.

Definition cString (env : JNIEnv) (str : jstring) : Prog cstring :=
  match str with
  | None => Ret None
  | Some units => chars <- GetStringUTFChars env units ;; Ret (Some chars)
  end.

(** A [jstring] used as a condition: true unless it is the null reference. *)
Definition nonnull (str : jstring) : bool :=
  match str with
  | Some _ => true
  | None => false
  end.

(** [static_cast<bool>] of a [jboolean]. *)
Definition static_cast_bool (b : jboolean) : bool := negb (b =? 0).

(** A C++ [bool] returned as [jboolean]. *)
Definition jboolean_of_bool (b : bool) : jboolean := if b then 1 else 0.

(** ** Arguments of one call

    C++ leaves unspecified in which order the arguments of a call are
    evaluated; the compiler settles it for each call.  Two calls of the
    bridge have more than one argument that acquires memory. *)

Inductive order_of_two : Type :=
| first_second
| second_first.

Inductive order_of_three : Type :=
| first_second_third
| first_third_second
| second_first_third
| second_third_first
| third_first_second
| third_second_first.

(** The order the compiler gave the string conversions in the arguments of
    [SQCloudUploadDatabase] and of [SQCloudBlobOpen]. *)
Class compiler := {
  SQCloudUploadDatabase_arguments : order_of_two;
  SQCloudBlobOpen_arguments : order_of_three
}.

(** Two and three arguments, evaluated in a given order. *)
Definition arguments2 {A B : Type} (order : order_of_two)
  (a : Prog A) (b : Prog B) : Prog (A * B) :=
  match order with
  | first_second => x <- a ;; y <- b ;; Ret (x, y)
  | second_first => y <- b ;; x <- a ;; Ret (x, y)
  end.

Definition arguments3 {A B C : Type} (order : order_of_three)
  (a : Prog A) (b : Prog B) (c : Prog C) : Prog (A * B * C) :=
  match order with
  | first_second_third => x <- a ;; y <- b ;; z <- c ;; Ret (x, y, z)
  | first_third_second => x <- a ;; z <- c ;; y <- b ;; Ret (x, y, z)
  | second_first_third => y <- b ;; x <- a ;; z <- c ;; Ret (x, y, z)
  | second_third_first => y <- b ;; z <- c ;; x <- a ;; Ret (x, y, z)
  | third_first_second => z <- c ;; x <- a ;; y <- b ;; Ret (x, y, z)
  | third_second_first => z <- c ;; y <- b ;; x <- a ;; Ret (x, y, z)
  end.

(** The same orders, on values. *)
Definition in_order2 {A : Type} (order : order_of_two) (a b : A) : list A :=
  match order with
  | first_second => [a; b]
  | second_first => [b; a]
  end.

Definition in_order3 {A : Type} (order : order_of_three) (a b c : A) : list A :=
  match order with
  | first_second_third => [a; b; c]
  | first_third_second => [a; c; b]
  | second_first_third => [b; a; c]
  | second_third_first => [b; c; a]
  | third_first_second => [c; a; b]
  | third_second_first => [c; b; a]
  end.

(** ** Exported functions: connection and errors *)

Definition Java_io_sqlitecloud_SQLiteCloudBridge_doConnect
  (env : JNIEnv) (thiz : SQLiteCloudBridge)
  (hostname : jstring) (port : jint)
  (username password database : jstring)
  (timeout family : jint)
  (compression sqlite_mode zero_text password_hashed nonlinearizable
     db_memory no_blob db_create : jboolean)
  (max_data max_rows max_rowset : jint)
  (tls_root_certificate tls_certificate tls_certificate_key : jstring)
  (insecure : jboolean) : Prog jobject :=
  c_username <- cString env username ;;
  c_password <- cString env password ;;
  c_database <- (if nonnull database then cString env database else Ret None) ;;
  c_tls_root_certificate <-
    (if nonnull tls_root_certificate then cString env tls_root_certificate else Ret None) ;;
  c_tls_certificate <-
    (if nonnull tls_certificate then cString env tls_certificate else Ret None) ;;
  c_tls_certificate_key <-
    (if nonnull tls_certificate_key then cString env tls_certificate_key else Ret None) ;;
  let config :=
    {| SQCloudConfig.username := c_username;
       SQCloudConfig.password := c_password;
       SQCloudConfig.database := c_database;
       SQCloudConfig.timeout := timeout;
       SQCloudConfig.family := family;
       SQCloudConfig.compression := static_cast_bool compression;
       SQCloudConfig.sqlite_mode := static_cast_bool sqlite_mode;
       SQCloudConfig.zero_text := static_cast_bool zero_text;
       SQCloudConfig.password_hashed := static_cast_bool password_hashed;
       SQCloudConfig.nonlinearizable := static_cast_bool nonlinearizable;
       SQCloudConfig.db_memory := static_cast_bool db_memory;
       SQCloudConfig.no_blob := static_cast_bool no_blob;
       SQCloudConfig.db_create := static_cast_bool db_create;
       SQCloudConfig.max_data := max_data;
       SQCloudConfig.max_rows := max_rows;
       SQCloudConfig.max_rowset := max_rowset;
       SQCloudConfig.tls_root_certificate := c_tls_root_certificate;
       SQCloudConfig.tls_certificate := c_tls_certificate;
       SQCloudConfig.tls_certificate_key := c_tls_certificate_key;
       SQCloudConfig.insecure := static_cast_bool insecure |} in
  c_hostname <- cString env hostname ;;
  connection <- native (SQCloudConnect c_hostname port config) ;;
  Ret (wrapPointer env connection).

Definition Java_io_sqlitecloud_SQLiteCloudBridge_doDisconnect
  (env : JNIEnv) (thiz : SQLiteCloudBridge) : Prog unit :=
  native (SQCloudDisconnect (getConnection env thiz)).

Definition Java_io_sqlitecloud_SQLiteCloudBridge_isError
  (env : JNIEnv) (thiz : SQLiteCloudBridge) : Prog jboolean :=
  r <- native (SQCloudIsError (getConnection env thiz)) ;;
  Ret (jboolean_of_bool r).

Definition Java_io_sqlitecloud_SQLiteCloudBridge_isSQLiteError
  (env : JNIEnv) (thiz : SQLiteCloudBridge) : Prog jboolean :=
  r <- native (SQCloudIsSQLiteError (getConnection env thiz)) ;;
  Ret (jboolean_of_bool r).

Definition Java_io_sqlitecloud_SQLiteCloudBridge_errorCode
  (env : JNIEnv) (thiz : SQLiteCloudBridge) : Prog jobject :=
  let connection := getConnection env thiz in
  is_error <- native (SQCloudIsError connection) ;;
  if negb is_error then Ret null
  else
    code <- native (SQCloudErrorCode connection) ;;
    Ret (JNI.NewInteger env code).

Definition Java_io_sqlitecloud_SQLiteCloudBridge_errorMessage
  (env : JNIEnv) (thiz : SQLiteCloudBridge) : Prog jstring :=
  let connection := getConnection env thiz in
  is_error <- native (SQCloudIsError connection) ;;
  if negb is_error then Ret None
  else
    message <- native (SQCloudErrorMsg connection) ;;
    Ret (JNI.NewStringUTF env message).

Definition Java_io_sqlitecloud_SQLiteCloudBridge_extendedErrorCode
  (env : JNIEnv) (thiz : SQLiteCloudBridge) : Prog jobject :=
  let connection := getConnection env thiz in
  is_error <- native (SQCloudIsError connection) ;;
  if negb is_error then Ret null
  else
    code <- native (SQCloudExtendedErrorCode connection) ;;
    Ret (JNI.NewInteger env code).

Definition Java_io_sqlitecloud_SQLiteCloudBridge_errorOffset
  (env : JNIEnv) (thiz : SQLiteCloudBridge) : Prog jobject :=
  let connection := getConnection env thiz in
  is_error <- native (SQCloudIsError connection) ;;
  if negb is_error then Ret null
  else
    offset <- native (SQCloudErrorOffset connection) ;;
    Ret (JNI.NewInteger env offset).

Definition Java_io_sqlitecloud_SQLiteCloudBridge_vmErrorCode
  (env : JNIEnv) (thiz : SQLiteCloudBridge) (wrappedVM : jobject) : Prog jobject :=
  let vm := unwrapVM env wrappedVM in
  if vm =? nullptr then Ret null
  else
    code <- native (SQCloudVMErrorCode vm) ;;
    Ret (JNI.NewInteger env code).

Definition Java_io_sqlitecloud_SQLiteCloudBridge_vmErrorMessage
  (env : JNIEnv) (thiz : SQLiteCloudBridge) (wrappedVM : jobject) : Prog jstring :=
  let vm := unwrapVM env wrappedVM in
  if vm =? nullptr then Ret None
  else
    message <- native (SQCloudVMErrorMsg vm) ;;
    Ret (JNI.NewStringUTF env message).

(** ** Exported functions: publish and subscribe *)

(** The method the trampoline looks up on the bridge object. *)
Definition pubSubCallback_method : jmethodID :=
  {| method_name := "pubSubCallback";
     method_signature := "(Ljava/nio/ByteBuffer;)V" |}.

(** The trampoline the native library calls for each event. *)
Definition pubSubCallback (connection result data : pointer) : Prog unit :=
  pubSubData <- deref data ;;
  let env := PubSubData.env pubSubData in
  let thiz := PubSubData.thiz pubSubData in
  let wrappedResult := wrapPointer env result in
  upcall (CallVoidMethod env thiz pubSubCallback_method wrappedResult).

(** What the native library runs when it calls through a function pointer
    the bridge gave it. *)
Definition call_native_function (f : native_function)
  (connection result data : pointer) : Prog unit :=
  match f with
  | address_of_pubSubCallback => pubSubCallback connection result data
  end.

Definition Java_io_sqlitecloud_SQLiteCloudBridge_setPubSubCallback
  (env : JNIEnv) (thiz : SQLiteCloudBridge) : Prog unit :=
  data <- acquire (new_PubSubData
                     {| PubSubData.env := env;
                        PubSubData.thiz := reference thiz |}) ;;
  native (SQCloudSetPubSubCallback (getConnection env thiz)
            address_of_pubSubCallback data).

Definition Java_io_sqlitecloud_SQLiteCloudBridge_setPubSubOnly
  (env : JNIEnv) (thiz : SQLiteCloudBridge) : Prog jobject :=
  result <- native (SQCloudSetPubSubOnly (getConnection env thiz)) ;;
  Ret (wrapPointer env result).

Definition Java_io_sqlitecloud_SQLiteCloudBridge_getClientUUID
  (env : JNIEnv) (thiz : SQLiteCloudBridge) : Prog jstring :=
  let connection := getConnection env thiz in
  if connection =? nullptr then Ret None
  else
    uuid <- native (SQCloudUUID connection) ;;
    Ret (JNI.NewStringUTF env uuid).

(** ** Exported functions: commands *)

Definition Java_io_sqlitecloud_SQLiteCloudBridge_executeCommand
  (env : JNIEnv) (thiz : SQLiteCloudBridge) (query : jstring) : Prog jobject :=
  let connection := getConnection env thiz in
  command <- cString env query ;;
  result <- native (SQCloudExec connection command) ;;
  Ret (wrapPointer env result).

Section ExecuteArray.
Context `{sqcloud_h}.

(** One turn of the loop of [executeArrayCommand]: the value pointer and the
    length stored at index [i].  A declared type the array does not hold,
    and a string conversion of what is no string, leave the contract. *)
Definition marshal_param (env : JNIEnv) (paramTypes : list Z) (i : nat)
  (param : jobject) : Prog (param_ptr * Z) :=
  match nth_error paramTypes i with
  | None => Undefined
  | Some type =>
      if type =? VALUE_BLOB then
        Ret (buffer_ptr (JNI.GetDirectBufferAddress env param),
             uint32_t (JNI.GetDirectBufferCapacity env param))
      else
        match param with
        | JavaString units =>
            chars <- cString env (Some units) ;;
            Ret (chars_ptr chars, uint32_t (JNI.GetStringLength env units))
        | _ => Undefined
        end
  end.

(** The loop, from index [i] on, over the parameters not yet converted:
    the slots of [nativeParams] and [paramLengths] it fills, in order. *)
Fixpoint marshal_params (env : JNIEnv) (paramTypes : list Z) (i : nat)
  (params : list jobject) : Prog (list param_ptr * list Z) :=
  match params with
  | [] => Ret ([], [])
  | param :: rest =>
      slot <- marshal_param env paramTypes i param ;;
      slots <- marshal_params env paramTypes (S i) rest ;;
      Ret (fst slot :: fst slots, snd slot :: snd slots)
  end.

Definition Java_io_sqlitecloud_SQLiteCloudBridge_executeArrayCommand
  (env : JNIEnv) (thiz : SQLiteCloudBridge) (query : jstring)
  (params : list jobject) (param_types : list Z) : Prog jobject :=
  let connection := getConnection env thiz in
  command <- cString env query ;;
  let paramCount := uint32_t (JNI.GetArrayLength env params) in
  acquire (calloc paramCount sizeof_pointer) ;;
  acquire (calloc paramCount 4) ;;
  paramTypes <- GetIntArrayElements env param_types ;;
  slots <- marshal_params env paramTypes 0 params ;;
  types <- GetIntArrayElements env param_types ;;
  result <- native (SQCloudExecArray connection command (fst slots) (snd slots)
                      types paramCount) ;;
  Ret (wrapPointer env result).

End ExecuteArray.

(** ** Exported functions: results *)

Definition Java_io_sqlitecloud_SQLiteCloudBridge_freeResult
  (env : JNIEnv) (thiz : SQLiteCloudBridge) (wrappedResult : jobject) : Prog unit :=
  let result := unwrapResult env wrappedResult in
  native (SQCloudResultFree result).

Definition Java_io_sqlitecloud_SQLiteCloudBridge_resultType
  (env : JNIEnv) (thiz : SQLiteCloudBridge) (wrappedResult : jobject) : Prog jint :=
  let result := unwrapResult env wrappedResult in
  r <- native (SQCloudResultType result) ;;
  Ret (int32_t r).

Definition Java_io_sqlitecloud_SQLiteCloudBridge_intResult
  (env : JNIEnv) (thiz : SQLiteCloudBridge) (wrappedResult : jobject) : Prog jint :=
  let result := unwrapResult env wrappedResult in
  r <- native (SQCloudResultInt32 result) ;;
  Ret (int32_t r).

Definition Java_io_sqlitecloud_SQLiteCloudBridge_longResult
  (env : JNIEnv) (thiz : SQLiteCloudBridge) (wrappedResult : jobject) : Prog jlong :=
  let result := unwrapResult env wrappedResult in
  r <- native (SQCloudResultInt64 result) ;;
  Ret (int64_t r).

Definition Java_io_sqlitecloud_SQLiteCloudBridge_doubleResult
  (env : JNIEnv) (thiz : SQLiteCloudBridge) (wrappedResult : jobject) : Prog jdouble :=
  let result := unwrapResult env wrappedResult in
  native (SQCloudResultDouble result).

Definition Java_io_sqlitecloud_SQLiteCloudBridge_stringResult
  (env : JNIEnv) (thiz : SQLiteCloudBridge) (wrappedResult : jobject) : Prog jstring :=
  let result := unwrapResult env wrappedResult in
  bufferResult <- native (SQCloudResultBuffer result) ;;
  Ret (JNI.NewStringUTF env bufferResult).

Definition Java_io_sqlitecloud_SQLiteCloudBridge_bufferResult
  (env : JNIEnv) (thiz : SQLiteCloudBridge) (wrappedResult : jobject) : Prog jobject :=
  let result := unwrapResult env wrappedResult in
  bufferResult <- native (SQCloudResultBuffer result) ;;
  len <- native (SQCloudResultLen result) ;;
  Ret (JNI.NewDirectByteBuffer env (address bufferResult) len).

Definition Java_io_sqlitecloud_SQLiteCloudBridge_arrayResultSize
  (env : JNIEnv) (thiz : SQLiteCloudBridge) (wrappedResult : jobject) : Prog jint :=
  let result := unwrapResult env wrappedResult in
  r <- native (SQCloudArrayCount result) ;;
  Ret (int32_t r).

Definition Java_io_sqlitecloud_SQLiteCloudBridge_arrayResultValueType
  (env : JNIEnv) (thiz : SQLiteCloudBridge) (wrappedResult : jobject)
  (index : jint) : Prog jint :=
  let result := unwrapResult env wrappedResult in
  r <- native (SQCloudArrayValueType result index) ;;
  Ret (int32_t r).

Definition Java_io_sqlitecloud_SQLiteCloudBridge_arrayResultLongValue
  (env : JNIEnv) (thiz : SQLiteCloudBridge) (wrappedResult : jobject)
  (index : jint) : Prog jlong :=
  let result := unwrapResult env wrappedResult in
  r <- native (SQCloudArrayInt64Value result index) ;;
  Ret (int64_t r).

Definition Java_io_sqlitecloud_SQLiteCloudBridge_arrayResultDoubleValue
  (env : JNIEnv) (thiz : SQLiteCloudBridge) (wrappedResult : jobject)
  (index : jint) : Prog jdouble :=
  let result := unwrapResult env wrappedResult in
  native (SQCloudArrayDoubleValue result index).

Definition Java_io_sqlitecloud_SQLiteCloudBridge_arrayResultStringValue
  (env : JNIEnv) (thiz : SQLiteCloudBridge) (wrappedResult : jobject)
  (index : jint) : Prog jstring :=
  let result := unwrapResult env wrappedResult in
  value <- native (SQCloudArrayValue result index) ;;
  Ret (JNI.NewStringUTF env (fst value)).

Definition Java_io_sqlitecloud_SQLiteCloudBridge_arrayResultBufferValue
  (env : JNIEnv) (thiz : SQLiteCloudBridge) (wrappedResult : jobject)
  (index : jint) : Prog jobject :=
  let result := unwrapResult env wrappedResult in
  value <- native (SQCloudArrayValue result index) ;;
  let valueSize := snd value in
  Ret (JNI.NewDirectByteBuffer env (address (fst value)) valueSize).

Definition Java_io_sqlitecloud_SQLiteCloudBridge_rowsetResultRowCount
  (env : JNIEnv) (thiz : SQLiteCloudBridge) (wrappedResult : jobject) : Prog jint :=
  let result := unwrapResult env wrappedResult in
  r <- native (SQCloudRowsetRows result) ;;
  Ret (int32_t r).

Definition Java_io_sqlitecloud_SQLiteCloudBridge_rowsetResultColumnCount
  (env : JNIEnv) (thiz : SQLiteCloudBridge) (wrappedResult : jobject) : Prog jint :=
  let result := unwrapResult env wrappedResult in
  r <- native (SQCloudRowsetCols result) ;;
  Ret (int32_t r).

Definition Java_io_sqlitecloud_SQLiteCloudBridge_rowsetResultColumnName
  (env : JNIEnv) (thiz : SQLiteCloudBridge) (wrappedResult : jobject)
  (column : jint) : Prog jstring :=
  let result := unwrapResult env wrappedResult in
  columnName <- native (SQCloudRowsetColumnName result column) ;;
  Ret (JNI.NewStringUTF env (fst columnName)).

Definition Java_io_sqlitecloud_SQLiteCloudBridge_rowsetResultValueType
  (env : JNIEnv) (thiz : SQLiteCloudBridge) (wrappedResult : jobject)
  (row column : jint) : Prog jint :=
  let result := unwrapResult env wrappedResult in
  r <- native (SQCloudRowsetValueType result row column) ;;
  Ret (int32_t r).

Definition Java_io_sqlitecloud_SQLiteCloudBridge_rowsetResultLongValue
  (env : JNIEnv) (thiz : SQLiteCloudBridge) (wrappedResult : jobject)
  (row column : jint) : Prog jlong :=
  let result := unwrapResult env wrappedResult in
  r <- native (SQCloudRowsetInt64Value result row column) ;;
  Ret (int64_t r).

Definition Java_io_sqlitecloud_SQLiteCloudBridge_rowsetResultDoubleValue
  (env : JNIEnv) (thiz : SQLiteCloudBridge) (wrappedResult : jobject)
  (row column : jint) : Prog jdouble :=
  let result := unwrapResult env wrappedResult in
  native (SQCloudRowsetDoubleValue result row column).

Definition Java_io_sqlitecloud_SQLiteCloudBridge_rowsetResultStringValue
  (env : JNIEnv) (thiz : SQLiteCloudBridge) (wrappedResult : jobject)
  (row column : jint) : Prog jstring :=
  let result := unwrapResult env wrappedResult in
  value <- native (SQCloudRowsetValue result row column) ;;
  Ret (JNI.NewStringUTF env (fst value)).

Definition Java_io_sqlitecloud_SQLiteCloudBridge_rowsetResultBufferValue
  (env : JNIEnv) (thiz : SQLiteCloudBridge) (wrappedResult : jobject)
  (row column : jint) : Prog jobject :=
  let result := unwrapResult env wrappedResult in
  value <- native (SQCloudRowsetValue result row column) ;;
  let valueSize := snd value in
  Ret (JNI.NewDirectByteBuffer env (address (fst value)) valueSize).

(** ** Exported functions: databases and blobs *)

Section UnsequencedArguments.
Context `{compiler}.

Definition Java_io_sqlitecloud_SQLiteCloudBridge_uploadDatabase
  (env : JNIEnv) (thiz : SQLiteCloudBridge) (name encryption_key : jstring)
  (data_handler : jobject) (file_size : jlong) (callback : jobject)
  : Prog jboolean :=
  '(c_name, c_encryption_key) <-
    arguments2 SQCloudUploadDatabase_arguments
      (cString env name) (cString env encryption_key) ;;
  r <- native (SQCloudUploadDatabase (getConnection env thiz) c_name
                 c_encryption_key data_handler file_size callback) ;;
  Ret (jboolean_of_bool r).

Definition Java_io_sqlitecloud_SQLiteCloudBridge_downloadDatabase
  (env : JNIEnv) (thiz : SQLiteCloudBridge) (name : jstring)
  (data_handler : jobject) (callback : jobject) : Prog jboolean :=
  c_name <- cString env name ;;
  r <- native (SQCloudDownloadDatabase (getConnection env thiz) c_name
                 data_handler callback) ;;
  Ret (jboolean_of_bool r).

Definition Java_io_sqlitecloud_SQLiteCloudBridge_openBlob
  (env : JNIEnv) (thiz : SQLiteCloudBridge) (schema table column : jstring)
  (row_id : jlong) (read_write : jboolean) : Prog jobject :=
  '(c_schema, c_table, c_column) <-
    arguments3 SQCloudBlobOpen_arguments
      (cString env schema) (cString env table) (cString env column) ;;
  handle <- native (SQCloudBlobOpen (getConnection env thiz) c_schema c_table
                      c_column row_id read_write) ;;
  Ret (wrapPointer env handle).

End UnsequencedArguments.

Definition Java_io_sqlitecloud_SQLiteCloudBridge_reopenBlob
  (env : JNIEnv) (thiz : SQLiteCloudBridge) (handle : jobject) (row_id : jlong)
  : Prog jboolean :=
  r <- native (SQCloudBlobReOpen (unwrapBlob env handle) row_id) ;;
  Ret (jboolean_of_bool r).

Definition Java_io_sqlitecloud_SQLiteCloudBridge_closeBlob
  (env : JNIEnv) (thiz : SQLiteCloudBridge) (handle : jobject) : Prog jboolean :=
  r <- native (SQCloudBlobClose (unwrapBlob env handle)) ;;
  Ret (jboolean_of_bool r).

Definition Java_io_sqlitecloud_SQLiteCloudBridge_blobFieldSize
  (env : JNIEnv) (thiz : SQLiteCloudBridge) (handle : jobject) : Prog jint :=
  r <- native (SQCloudBlobBytes (unwrapBlob env handle)) ;;
  Ret (int32_t r).

Definition Java_io_sqlitecloud_SQLiteCloudBridge_readBlob
  (env : JNIEnv) (thiz : SQLiteCloudBridge) (handle buffer : jobject) : Prog jint :=
  r <- native (SQCloudBlobRead (unwrapBlob env handle)
                 (JNI.GetDirectBufferAddress env buffer)
                 (JNI.GetDirectBufferCapacity env buffer)
                 0) ;;
  Ret (int32_t r).

Definition Java_io_sqlitecloud_SQLiteCloudBridge_writeBlob
  (env : JNIEnv) (thiz : SQLiteCloudBridge) (handle buffer : jobject) : Prog jint :=
  result <- native (SQCloudBlobWrite (unwrapBlob env handle)
                      (JNI.GetDirectBufferAddress env buffer)
                      (JNI.GetDirectBufferCapacity env buffer)
                      0) ;;
  Ret (int32_t result).

(** ** Exported functions: the statement virtual machine *)

Definition Java_io_sqlitecloud_SQLiteCloudBridge_vmBindInt
  (env : JNIEnv) (thiz : SQLiteCloudBridge) (wrappedVM : jobject)
  (row_index value : jint) : Prog jboolean :=
  let vm := unwrapVM env wrappedVM in
  r <- native (SQCloudVMBindInt vm row_index value) ;;
  Ret (jboolean_of_bool r).

Definition Java_io_sqlitecloud_SQLiteCloudBridge_vmBindInt64
  (env : JNIEnv) (thiz : SQLiteCloudBridge) (wrappedVM : jobject)
  (row_index : jint) (value : jlong) : Prog jboolean :=
  let vm := unwrapVM env wrappedVM in
  r <- native (SQCloudVMBindInt64 vm row_index value) ;;
  Ret (jboolean_of_bool r).

Definition Java_io_sqlitecloud_SQLiteCloudBridge_vmBindDouble
  (env : JNIEnv) (thiz : SQLiteCloudBridge) (wrappedVM : jobject)
  (row_index : jint) (value : jdouble) : Prog jboolean :=
  let vm := unwrapVM env wrappedVM in
  r <- native (SQCloudVMBindDouble vm row_index value) ;;
  Ret (jboolean_of_bool r).

Definition Java_io_sqlitecloud_SQLiteCloudBridge_vmBindText
  (env : JNIEnv) (thiz : SQLiteCloudBridge) (wrappedVM : jobject)
  (row_index : jint) (value : jstring) (byteSize : jint) : Prog jboolean :=
  let vm := unwrapVM env wrappedVM in
  c_value <- cString env value ;;
  r <- native (SQCloudVMBindText vm row_index c_value byteSize) ;;
  Ret (jboolean_of_bool r).

Definition Java_io_sqlitecloud_SQLiteCloudBridge_vmBindBlob
  (env : JNIEnv) (thiz : SQLiteCloudBridge) (wrappedVM : jobject)
  (row_index : jint) (value : jobject) : Prog jboolean :=
  let vm := unwrapVM env wrappedVM in
  r <- native (SQCloudVMBindBlob vm row_index (unwrapPointer env value)
                 (JNI.GetDirectBufferCapacity env value)) ;;
  Ret (jboolean_of_bool r).

Definition Java_io_sqlitecloud_SQLiteCloudBridge_vmBindZeroBlob
  (env : JNIEnv) (thiz : SQLiteCloudBridge) (wrappedVM : jobject)
  (row_index : jint) : Prog jboolean :=
  let vm := unwrapVM env wrappedVM in
  r <- native (SQCloudVMBindZeroBlob vm row_index 0) ;;
  Ret (jboolean_of_bool r).

Definition Java_io_sqlitecloud_SQLiteCloudBridge_vmBindNull
  (env : JNIEnv) (thiz : SQLiteCloudBridge) (wrappedVM : jobject)
  (row_index : jint) : Prog jboolean :=
  let vm := unwrapVM env wrappedVM in
  r <- native (SQCloudVMBindNull vm row_index) ;;
  Ret (jboolean_of_bool r).

Definition Java_io_sqlitecloud_SQLiteCloudBridge_vmCompile
  (env : JNIEnv) (thiz : SQLiteCloudBridge) (query : jstring) : Prog jobject :=
  c_query <- cString env query ;;
  result <- native (SQCloudVMCompile (getConnection env thiz) c_query (-1)
                      nullptr) ;;
  Ret (wrapPointer env result).

Definition Java_io_sqlitecloud_SQLiteCloudBridge_vmStep
  (env : JNIEnv) (thiz : SQLiteCloudBridge) (wrappedVM : jobject) : Prog jint :=
  let vm := unwrapVM env wrappedVM in
  result <- native (SQCloudVMStep vm) ;;
  Ret (int32_t result).

Definition Java_io_sqlitecloud_SQLiteCloudBridge_vmClose
  (env : JNIEnv) (thiz : SQLiteCloudBridge) (wrappedVM : jobject) : Prog jboolean :=
  let vm := unwrapVM env wrappedVM in
  r <- native (SQCloudVMClose vm) ;;
  Ret (jboolean_of_bool r).

Definition Java_io_sqlitecloud_SQLiteCloudBridge_vmColumnCount
  (env : JNIEnv) (thiz : SQLiteCloudBridge) (wrappedVM : jobject) : Prog jint :=
  let vm := unwrapVM env wrappedVM in
  r <- native (SQCloudVMColumnCount vm) ;;
  Ret (int32_t r).

Definition Java_io_sqlitecloud_SQLiteCloudBridge_vmLastRowID
  (env : JNIEnv) (thiz : SQLiteCloudBridge) (wrappedVM : jobject) : Prog jlong :=
  let vm := unwrapVM env wrappedVM in
  r <- native (SQCloudVMLastRowID vm) ;;
  Ret (int64_t r).

Definition Java_io_sqlitecloud_SQLiteCloudBridge_vmChanges
  (env : JNIEnv) (thiz : SQLiteCloudBridge) (wrappedVM : jobject) : Prog jlong :=
  let vm := unwrapVM env wrappedVM in
  r <- native (SQCloudVMChanges vm) ;;
  Ret (int64_t r).

Definition Java_io_sqlitecloud_SQLiteCloudBridge_vmTotalChanges
  (env : JNIEnv) (thiz : SQLiteCloudBridge) (wrappedVM : jobject) : Prog jlong :=
  let vm := unwrapVM env wrappedVM in
  r <- native (SQCloudVMTotalChanges vm) ;;
  Ret (int64_t r).

Definition Java_io_sqlitecloud_SQLiteCloudBridge_vmIsReadOnly
  (env : JNIEnv) (thiz : SQLiteCloudBridge) (wrappedVM : jobject) : Prog jboolean :=
  let vm := unwrapVM env wrappedVM in
  r <- native (SQCloudVMIsReadOnly vm) ;;
  Ret (jboolean_of_bool r).

Definition Java_io_sqlitecloud_SQLiteCloudBridge_vmIsExplain
  (env : JNIEnv) (thiz : SQLiteCloudBridge) (wrappedVM : jobject) : Prog jint :=
  let vm := unwrapVM env wrappedVM in
  r <- native (SQCloudVMIsExplain vm) ;;
  Ret (int32_t r).

Definition Java_io_sqlitecloud_SQLiteCloudBridge_vmIsFinalized
  (env : JNIEnv) (thiz : SQLiteCloudBridge) (wrappedVM : jobject) : Prog jboolean :=
  let vm := unwrapVM env wrappedVM in
  r <- native (SQCloudVMIsFinalized vm) ;;
  Ret (jboolean_of_bool r).

Definition Java_io_sqlitecloud_SQLiteCloudBridge_vmBindParameterCount
  (env : JNIEnv) (thiz : SQLiteCloudBridge) (wrappedVM : jobject) : Prog jint :=
  let vm := unwrapVM env wrappedVM in
  r <- native (SQCloudVMBindParameterCount vm) ;;
  Ret (int32_t r).

Definition Java_io_sqlitecloud_SQLiteCloudBridge_vmBindParameterIndex
  (env : JNIEnv) (thiz : SQLiteCloudBridge) (wrappedVM : jobject)
  (name : jstring) : Prog jint :=
  let vm := unwrapVM env wrappedVM in
  c_name <- cString env name ;;
  r <- native (SQCloudVMBindParameterIndex vm c_name) ;;
  Ret (int32_t r).

Definition Java_io_sqlitecloud_SQLiteCloudBridge_vmBindParameterName
  (env : JNIEnv) (thiz : SQLiteCloudBridge) (wrappedVM : jobject)
  (index : jint) : Prog jstring :=
  let vm := unwrapVM env wrappedVM in
  name <- native (SQCloudVMBindParameterName vm index) ;;
  Ret (JNI.NewStringUTF env name).

Definition Java_io_sqlitecloud_SQLiteCloudBridge_vmColumnType
  (env : JNIEnv) (thiz : SQLiteCloudBridge) (wrappedVM : jobject)
  (index : jint) : Prog jint :=
  let vm := unwrapVM env wrappedVM in
  r <- native (SQCloudVMColumnType vm index) ;;
  Ret (int32_t r).

Definition Java_io_sqlitecloud_SQLiteCloudBridge_vmResult
  (env : JNIEnv) (thiz : SQLiteCloudBridge) (wrappedVM : jobject) : Prog jobject :=
  let vm := unwrapVM env wrappedVM in
  result <- native (SQCloudVMResult vm) ;;
  Ret (wrapPointer env result).

Definition Java_io_sqlitecloud_SQLiteCloudBridge_rowsetColumnName
  (env : JNIEnv) (thiz : SQLiteCloudBridge) (wrappedResult : jobject)
  (index : jint) : Prog jstring :=
  let result := unwrapResult env wrappedResult in
  name <- native (SQCloudRowsetColumnName result index) ;;
  Ret (JNI.NewStringUTF env (fst name)).

Definition Java_io_sqlitecloud_SQLiteCloudBridge_vmColumnInt64
  (env : JNIEnv) (thiz : SQLiteCloudBridge) (wrappedVM : jobject)
  (index : jint) : Prog jlong :=
  let vm := unwrapVM env wrappedVM in
  r <- native (SQCloudVMColumnInt64 vm index) ;;
  Ret (int64_t r).

Definition Java_io_sqlitecloud_SQLiteCloudBridge_vmColumnDouble
  (env : JNIEnv) (thiz : SQLiteCloudBridge) (wrappedVM : jobject)
  (index : jint) : Prog jdouble :=
  let vm := unwrapVM env wrappedVM in
  native (SQCloudVMColumnDouble vm index).

Definition Java_io_sqlitecloud_SQLiteCloudBridge_vmColumnText
  (env : JNIEnv) (thiz : SQLiteCloudBridge) (wrappedVM : jobject)
  (index : jint) : Prog jstring :=
  let vm := unwrapVM env wrappedVM in
  text <- native (SQCloudVMColumnText vm index) ;;
  Ret (JNI.NewStringUTF env (fst text)).

Definition Java_io_sqlitecloud_SQLiteCloudBridge_vmColumnBlob
  (env : JNIEnv) (thiz : SQLiteCloudBridge) (wrappedVM : jobject)
  (index : jint) : Prog jobject :=
  let vm := unwrapVM env wrappedVM in
  blob <- native (SQCloudVMColumnBlob vm index) ;;
  let blobLength := snd blob in
  Ret (JNI.NewDirectByteBuffer env (fst blob) blobLength).

(** ** The exported interface as a whole *)

(** One call of an exported function by the host, with its arguments. *)
Inductive Invocation : Type :=
| doConnect (hostname : jstring) (port : jint)
    (username password database : jstring) (timeout family : jint)
    (compression sqlite_mode zero_text password_hashed nonlinearizable
       db_memory no_blob db_create : jboolean)
    (max_data max_rows max_rowset : jint)
    (tls_root_certificate tls_certificate tls_certificate_key : jstring)
    (insecure : jboolean)
| doDisconnect
| isError
| isSQLiteError
| errorCode
| errorMessage
| extendedErrorCode
| errorOffset
| vmErrorCode (wrappedVM : jobject)
| vmErrorMessage (wrappedVM : jobject)
| setPubSubCallback
| setPubSubOnly
| getClientUUID
| executeCommand (query : jstring)
| executeArrayCommand (query : jstring) (params : list jobject) (param_types : list Z)
| freeResult (wrappedResult : jobject)
| resultType (wrappedResult : jobject)
| intResult (wrappedResult : jobject)
| longResult (wrappedResult : jobject)
| doubleResult (wrappedResult : jobject)
| stringResult (wrappedResult : jobject)
| bufferResult (wrappedResult : jobject)
| arrayResultSize (wrappedResult : jobject)
| arrayResultValueType (wrappedResult : jobject) (index : jint)
| arrayResultLongValue (wrappedResult : jobject) (index : jint)
| arrayResultDoubleValue (wrappedResult : jobject) (index : jint)
| arrayResultStringValue (wrappedResult : jobject) (index : jint)
| arrayResultBufferValue (wrappedResult : jobject) (index : jint)
| rowsetResultRowCount (wrappedResult : jobject)
| rowsetResultColumnCount (wrappedResult : jobject)
| rowsetResultColumnName (wrappedResult : jobject) (column : jint)
| rowsetResultValueType (wrappedResult : jobject) (row column : jint)
| rowsetResultLongValue (wrappedResult : jobject) (row column : jint)
| rowsetResultDoubleValue (wrappedResult : jobject) (row column : jint)
| rowsetResultStringValue (wrappedResult : jobject) (row column : jint)
| rowsetResultBufferValue (wrappedResult : jobject) (row column : jint)
| uploadDatabase (name encryption_key : jstring) (data_handler : jobject)
    (file_size : jlong) (callback : jobject)
| downloadDatabase (name : jstring) (data_handler callback : jobject)
| openBlob (schema table column : jstring) (row_id : jlong) (read_write : jboolean)
| reopenBlob (handle : jobject) (row_id : jlong)
| closeBlob (handle : jobject)
| blobFieldSize (handle : jobject)
| readBlob (handle buffer : jobject)
| writeBlob (handle buffer : jobject)
| vmBindInt (wrappedVM : jobject) (row_index value : jint)
| vmBindInt64 (wrappedVM : jobject) (row_index : jint) (value : jlong)
| vmBindDouble (wrappedVM : jobject) (row_index : jint) (value : jdouble)
| vmBindText (wrappedVM : jobject) (row_index : jint) (value : jstring) (byteSize : jint)
| vmBindBlob (wrappedVM : jobject) (row_index : jint) (value : jobject)
| vmBindZeroBlob (wrappedVM : jobject) (row_index : jint)
| vmBindNull (wrappedVM : jobject) (row_index : jint)
| vmCompile (query : jstring)
| vmStep (wrappedVM : jobject)
| vmClose (wrappedVM : jobject)
| vmColumnCount (wrappedVM : jobject)
| vmLastRowID (wrappedVM : jobject)
| vmChanges (wrappedVM : jobject)
| vmTotalChanges (wrappedVM : jobject)
| vmIsReadOnly (wrappedVM : jobject)
| vmIsExplain (wrappedVM : jobject)
| vmIsFinalized (wrappedVM : jobject)
| vmBindParameterCount (wrappedVM : jobject)
| vmBindParameterIndex (wrappedVM : jobject) (name : jstring)
| vmBindParameterName (wrappedVM : jobject) (index : jint)
| vmColumnType (wrappedVM : jobject) (index : jint)
| vmResult (wrappedVM : jobject)
| rowsetColumnName (wrappedResult : jobject) (index : jint)
| vmColumnInt64 (wrappedVM : jobject) (index : jint)
| vmColumnDouble (wrappedVM : jobject) (index : jint)
| vmColumnText (wrappedVM : jobject) (index : jint)
| vmColumnBlob (wrappedVM : jobject) (index : jint).

(** The value a function returns, as the host receives it. *)
Definition returning {A : Type} (to_host : A -> jvalue) (p : Prog A) : Prog jvalue :=
  a <- p ;; Ret (to_host a).

Definition to_void (u : unit) : jvalue := void.

Section Bridge.
Context `{sqcloud_h} `{compiler}.

(** The exported function an invocation names, applied to its arguments. *)
Definition bridge (env : JNIEnv) (thiz : SQLiteCloudBridge) (i : Invocation)
  : Prog jvalue :=
  match i with
  | doConnect hostname port username password database timeout family
      compression sqlite_mode zero_text password_hashed nonlinearizable
      db_memory no_blob db_create max_data max_rows max_rowset
      tls_root_certificate tls_certificate tls_certificate_key insecure =>
      returning of_jobject
        (Java_io_sqlitecloud_SQLiteCloudBridge_doConnect env thiz hostname port
           username password database timeout family compression sqlite_mode
           zero_text password_hashed nonlinearizable db_memory no_blob db_create
           max_data max_rows max_rowset tls_root_certificate tls_certificate
           tls_certificate_key insecure)
  | doDisconnect =>
      returning to_void (Java_io_sqlitecloud_SQLiteCloudBridge_doDisconnect env thiz)
  | isError =>
      returning of_jboolean (Java_io_sqlitecloud_SQLiteCloudBridge_isError env thiz)
  | isSQLiteError =>
      returning of_jboolean (Java_io_sqlitecloud_SQLiteCloudBridge_isSQLiteError env thiz)
  | errorCode =>
      returning of_jobject (Java_io_sqlitecloud_SQLiteCloudBridge_errorCode env thiz)
  | errorMessage =>
      returning of_jstring (Java_io_sqlitecloud_SQLiteCloudBridge_errorMessage env thiz)
  | extendedErrorCode =>
      returning of_jobject (Java_io_sqlitecloud_SQLiteCloudBridge_extendedErrorCode env thiz)
  | errorOffset =>
      returning of_jobject (Java_io_sqlitecloud_SQLiteCloudBridge_errorOffset env thiz)
  | vmErrorCode vm =>
      returning of_jobject (Java_io_sqlitecloud_SQLiteCloudBridge_vmErrorCode env thiz vm)
  | vmErrorMessage vm =>
      returning of_jstring (Java_io_sqlitecloud_SQLiteCloudBridge_vmErrorMessage env thiz vm)
  | setPubSubCallback =>
      returning to_void (Java_io_sqlitecloud_SQLiteCloudBridge_setPubSubCallback env thiz)
  | setPubSubOnly =>
      returning of_jobject (Java_io_sqlitecloud_SQLiteCloudBridge_setPubSubOnly env thiz)
  | getClientUUID =>
      returning of_jstring (Java_io_sqlitecloud_SQLiteCloudBridge_getClientUUID env thiz)
  | executeCommand query =>
      returning of_jobject (Java_io_sqlitecloud_SQLiteCloudBridge_executeCommand env thiz query)
  | executeArrayCommand query params param_types =>
      returning of_jobject
        (Java_io_sqlitecloud_SQLiteCloudBridge_executeArrayCommand env thiz query
           params param_types)
  | freeResult r =>
      returning to_void (Java_io_sqlitecloud_SQLiteCloudBridge_freeResult env thiz r)
  | resultType r =>
      returning of_jint (Java_io_sqlitecloud_SQLiteCloudBridge_resultType env thiz r)
  | intResult r =>
      returning of_jint (Java_io_sqlitecloud_SQLiteCloudBridge_intResult env thiz r)
  | longResult r =>
      returning of_jlong (Java_io_sqlitecloud_SQLiteCloudBridge_longResult env thiz r)
  | doubleResult r =>
      returning of_jdouble (Java_io_sqlitecloud_SQLiteCloudBridge_doubleResult env thiz r)
  | stringResult r =>
      returning of_jstring (Java_io_sqlitecloud_SQLiteCloudBridge_stringResult env thiz r)
  | bufferResult r =>
      returning of_jobject (Java_io_sqlitecloud_SQLiteCloudBridge_bufferResult env thiz r)
  | arrayResultSize r =>
      returning of_jint (Java_io_sqlitecloud_SQLiteCloudBridge_arrayResultSize env thiz r)
  | arrayResultValueType r index =>
      returning of_jint
        (Java_io_sqlitecloud_SQLiteCloudBridge_arrayResultValueType env thiz r index)
  | arrayResultLongValue r index =>
      returning of_jlong
        (Java_io_sqlitecloud_SQLiteCloudBridge_arrayResultLongValue env thiz r index)
  | arrayResultDoubleValue r index =>
      returning of_jdouble
        (Java_io_sqlitecloud_SQLiteCloudBridge_arrayResultDoubleValue env thiz r index)
  | arrayResultStringValue r index =>
      returning of_jstring
        (Java_io_sqlitecloud_SQLiteCloudBridge_arrayResultStringValue env thiz r index)
  | arrayResultBufferValue r index =>
      returning of_jobject
        (Java_io_sqlitecloud_SQLiteCloudBridge_arrayResultBufferValue env thiz r index)
  | rowsetResultRowCount r =>
      returning of_jint (Java_io_sqlitecloud_SQLiteCloudBridge_rowsetResultRowCount env thiz r)
  | rowsetResultColumnCount r =>
      returning of_jint
        (Java_io_sqlitecloud_SQLiteCloudBridge_rowsetResultColumnCount env thiz r)
  | rowsetResultColumnName r column =>
      returning of_jstring
        (Java_io_sqlitecloud_SQLiteCloudBridge_rowsetResultColumnName env thiz r column)
  | rowsetResultValueType r row column =>
      returning of_jint
        (Java_io_sqlitecloud_SQLiteCloudBridge_rowsetResultValueType env thiz r row column)
  | rowsetResultLongValue r row column =>
      returning of_jlong
        (Java_io_sqlitecloud_SQLiteCloudBridge_rowsetResultLongValue env thiz r row column)
  | rowsetResultDoubleValue r row column =>
      returning of_jdouble
        (Java_io_sqlitecloud_SQLiteCloudBridge_rowsetResultDoubleValue env thiz r row column)
  | rowsetResultStringValue r row column =>
      returning of_jstring
        (Java_io_sqlitecloud_SQLiteCloudBridge_rowsetResultStringValue env thiz r row column)
  | rowsetResultBufferValue r row column =>
      returning of_jobject
        (Java_io_sqlitecloud_SQLiteCloudBridge_rowsetResultBufferValue env thiz r row column)
  | uploadDatabase name encryption_key data_handler file_size callback =>
      returning of_jboolean
        (Java_io_sqlitecloud_SQLiteCloudBridge_uploadDatabase env thiz name
           encryption_key data_handler file_size callback)
  | downloadDatabase name data_handler callback =>
      returning of_jboolean
        (Java_io_sqlitecloud_SQLiteCloudBridge_downloadDatabase env thiz name
           data_handler callback)
  | openBlob schema table column row_id read_write =>
      returning of_jobject
        (Java_io_sqlitecloud_SQLiteCloudBridge_openBlob env thiz schema table column
           row_id read_write)
  | reopenBlob handle row_id =>
      returning of_jboolean
        (Java_io_sqlitecloud_SQLiteCloudBridge_reopenBlob env thiz handle row_id)
  | closeBlob handle =>
      returning of_jboolean (Java_io_sqlitecloud_SQLiteCloudBridge_closeBlob env thiz handle)
  | blobFieldSize handle =>
      returning of_jint (Java_io_sqlitecloud_SQLiteCloudBridge_blobFieldSize env thiz handle)
  | readBlob handle buffer =>
      returning of_jint (Java_io_sqlitecloud_SQLiteCloudBridge_readBlob env thiz handle buffer)
  | writeBlob handle buffer =>
      returning of_jint (Java_io_sqlitecloud_SQLiteCloudBridge_writeBlob env thiz handle buffer)
  | vmBindInt vm row_index value =>
      returning of_jboolean
        (Java_io_sqlitecloud_SQLiteCloudBridge_vmBindInt env thiz vm row_index value)
  | vmBindInt64 vm row_index value =>
      returning of_jboolean
        (Java_io_sqlitecloud_SQLiteCloudBridge_vmBindInt64 env thiz vm row_index value)
  | vmBindDouble vm row_index value =>
      returning of_jboolean
        (Java_io_sqlitecloud_SQLiteCloudBridge_vmBindDouble env thiz vm row_index value)
  | vmBindText vm row_index value byteSize =>
      returning of_jboolean
        (Java_io_sqlitecloud_SQLiteCloudBridge_vmBindText env thiz vm row_index value
           byteSize)
  | vmBindBlob vm row_index value =>
      returning of_jboolean
        (Java_io_sqlitecloud_SQLiteCloudBridge_vmBindBlob env thiz vm row_index value)
  | vmBindZeroBlob vm row_index =>
      returning of_jboolean
        (Java_io_sqlitecloud_SQLiteCloudBridge_vmBindZeroBlob env thiz vm row_index)
  | vmBindNull vm row_index =>
      returning of_jboolean
        (Java_io_sqlitecloud_SQLiteCloudBridge_vmBindNull env thiz vm row_index)
  | vmCompile query =>
      returning of_jobject (Java_io_sqlitecloud_SQLiteCloudBridge_vmCompile env thiz query)
  | vmStep vm =>
      returning of_jint (Java_io_sqlitecloud_SQLiteCloudBridge_vmStep env thiz vm)
  | vmClose vm =>
      returning of_jboolean (Java_io_sqlitecloud_SQLiteCloudBridge_vmClose env thiz vm)
  | vmColumnCount vm =>
      returning of_jint (Java_io_sqlitecloud_SQLiteCloudBridge_vmColumnCount env thiz vm)
  | vmLastRowID vm =>
      returning of_jlong (Java_io_sqlitecloud_SQLiteCloudBridge_vmLastRowID env thiz vm)
  | vmChanges vm =>
      returning of_jlong (Java_io_sqlitecloud_SQLiteCloudBridge_vmChanges env thiz vm)
  | vmTotalChanges vm =>
      returning of_jlong (Java_io_sqlitecloud_SQLiteCloudBridge_vmTotalChanges env thiz vm)
  | vmIsReadOnly vm =>
      returning of_jboolean (Java_io_sqlitecloud_SQLiteCloudBridge_vmIsReadOnly env thiz vm)
  | vmIsExplain vm =>
      returning of_jint (Java_io_sqlitecloud_SQLiteCloudBridge_vmIsExplain env thiz vm)
  | vmIsFinalized vm =>
      returning of_jboolean (Java_io_sqlitecloud_SQLiteCloudBridge_vmIsFinalized env thiz vm)
  | vmBindParameterCount vm =>
      returning of_jint
        (Java_io_sqlitecloud_SQLiteCloudBridge_vmBindParameterCount env thiz vm)
  | vmBindParameterIndex vm name =>
      returning of_jint
        (Java_io_sqlitecloud_SQLiteCloudBridge_vmBindParameterIndex env thiz vm name)
  | vmBindParameterName vm index =>
      returning of_jstring
        (Java_io_sqlitecloud_SQLiteCloudBridge_vmBindParameterName env thiz vm index)
  | vmColumnType vm index =>
      returning of_jint (Java_io_sqlitecloud_SQLiteCloudBridge_vmColumnType env thiz vm index)
  | vmResult vm =>
      returning of_jobject (Java_io_sqlitecloud_SQLiteCloudBridge_vmResult env thiz vm)
  | rowsetColumnName r index =>
      returning of_jstring
        (Java_io_sqlitecloud_SQLiteCloudBridge_rowsetColumnName env thiz r index)
  | vmColumnInt64 vm index =>
      returning of_jlong (Java_io_sqlitecloud_SQLiteCloudBridge_vmColumnInt64 env thiz vm index)
  | vmColumnDouble vm index =>
      returning of_jdouble
        (Java_io_sqlitecloud_SQLiteCloudBridge_vmColumnDouble env thiz vm index)
  | vmColumnText vm index =>
      returning of_jstring
        (Java_io_sqlitecloud_SQLiteCloudBridge_vmColumnText env thiz vm index)
  | vmColumnBlob vm index =>
      returning of_jobject
        (Java_io_sqlitecloud_SQLiteCloudBridge_vmColumnBlob env thiz vm index)
  end.

End Bridge.

(** ** Concrete hosts and libraries, for running the model *)

(** A header in which VALUE_BLOB is 4. *)
Definition sample_header : sqcloud_h := {| VALUE_BLOB := 4 |}.

(** A build that evaluates arguments from the last to the first. *)
Definition sample_compiler : compiler :=
  {| SQCloudUploadDatabase_arguments := second_first;
     SQCloudBlobOpen_arguments := third_second_first |}.

(** A bridge object whose connection field boxes address 4096. *)
Definition sample_bridge : SQLiteCloudBridge :=
  {| reference := 1; connection := DirectByteBuffer 4096 sizeof_pointer |}.

(** A bridge object that was never connected. *)
Definition unconnected_bridge : SQLiteCloudBridge :=
  {| reference := 2; connection := null |}.

(** The JVM while a native method of the sample bridge runs. *)
Definition sample_jvm : JVM := native_method 7 sample_bridge.

(** A thread of the native library that never attached to the JVM. *)
Definition library_thread : JVM :=
  {| current_env := None; live_references := [] |}.

(** The reply made of zeros: 0, false, the null pointer. *)
Definition zero_reply (c : SQCloud) : reply c.
Proof.
  destruct c; simpl;
    first [ exact 0 | exact tt | exact false
          | exact {| address := nullptr; bytes := [] |}
          | exact ({| address := nullptr; bytes := [] |}, 0)
          | exact (nullptr, 0) ].
Defined.

(** A stateless library that answers every call with zeros: in particular
    it never reports an error. *)
Definition healthy_library : Library unit := fun c l => (zero_reply c, l).

(** A stateless library in the error state: [SQCloudIsError] holds, the
    error code is [code] and the message is [message]. *)
Definition failing_library (code : Z) (message : char_ptr) : Library unit :=
  fun c l =>
    (match c as c' return reply c' with
     | SQCloudIsError _ => true
     | SQCloudErrorCode _ => code
     | SQCloudExtendedErrorCode _ => code
     | SQCloudErrorOffset _ => code
     | SQCloudErrorMsg _ => message
     | c' => zero_reply c'
     end, l).

(** ** Outcomes in sequence *)

(** The outcome of [p] followed by [rest]. *)
Definition and_then {A B L : Type} (o : Outcome A L)
  (rest : A -> Heap -> L -> Outcome B L) : Outcome B L :=
  match returned o with
  | Some a =>
      let o' := rest a (heap_after o) (library_after o) in
      {| returned := returned o';
         trace := trace o ++ trace o';
         heap_after := heap_after o';
         library_after := library_after o' |}
  | None =>
      {| returned := None;
         trace := trace o;
         heap_after := heap_after o;
         library_after := library_after o |}
  end.


(** ** Vocabulary of the properties *)

(** The C string [cString] makes of a host string, and the buffer it
    acquires for it. *)
Definition converted (str : jstring) : cstring := option_map JNI.utf_of_units str.

Definition conversion_buffer (str : jstring) : Heap :=
  match str with
  | Some units => [StringUTFChars (JNI.utf_of_units units)]
  | None => []
  end.

(** The [PubSubData] records among some blocks. *)
Definition pubsub_records (heap : Heap) : list PubSubData.t :=
  flat_map (fun b => match b with new_PubSubData d => [d] | _ => [] end) heap.



(** An invocation stopped by a guard on a null handle. *)
Definition null_guarded (env : JNIEnv) (thiz : SQLiteCloudBridge)
  (i : Invocation) : bool :=
  match i with
  | vmErrorCode wrappedVM | vmErrorMessage wrappedVM =>
      unwrapVM env wrappedVM =? nullptr
  | getClientUUID => getConnection env thiz =? nullptr
  | _ => false
  end.


(** Invocations with a host string or array to convert. *)
Definition converts_arguments (i : Invocation) : bool :=
  match i with
  | doConnect _ _ _ _ _ _ _ _ _ _ _ _ _ _ _ _ _ _ _ _ _ _
  | executeCommand _ | executeArrayCommand _ _ _
  | uploadDatabase _ _ _ _ _ | downloadDatabase _ _ _
  | openBlob _ _ _ _ _ | vmBindText _ _ _ _ | vmCompile _
  | vmBindParameterIndex _ _ => true
  | _ => false
  end.

(** The record [setPubSubCallback] leaves behind; no other function
    leaves one. *)
Definition registration (env : JNIEnv) (thiz : SQLiteCloudBridge)
  (i : Invocation) : list PubSubData.t :=
  match i with
  | setPubSubCallback =>
      [{| PubSubData.env := env; PubSubData.thiz := reference thiz |}]
  | _ => []
  end.

(** Calls whose offset or length the bridge fixes. *)
Definition fixed_blob_arguments (c : SQCloud) : Prop :=
  match c with
  | SQCloudBlobRead _ _ _ offset | SQCloudBlobWrite _ _ _ offset => offset = 0
  | SQCloudVMBindZeroBlob _ _ len => len = 0
  | _ => True
  end.

(** The host calling exported functions one after another, each as a
    native method of its receiver: the heap and the library they leave. *)
Fixpoint invoke_all `{sqcloud_h} `{compiler} {L : Type} (lib : Library L)
  (invocations : list (JNIEnv * SQLiteCloudBridge * Invocation))
  (heap : Heap) (l : L) : Heap * L :=
  match invocations with
  | [] => (heap, l)
  | (env, thiz, i) :: rest =>
      let o := run (native_method env thiz) lib (bridge env thiz i) heap l in
      invoke_all lib rest (heap_after o) (library_after o)
  end.

(** ** Proof automation *)

(** Case analysis on every host string in the context, and on the order
    the compiler gave unsequenced arguments. *)
Ltac split_strings :=
  repeat match goal with
         | s : jstring |- _ => destruct s
         end;
  try match goal with
      | build : compiler |- context [openBlob _ _ _ _ _] =>
          destruct build as [[] []]
      | build : compiler |- context [uploadDatabase _ _ _ _ _] =>
          destruct build as [[] []]
      end.

(** Name the replies the library [lib] gives along a run, and follow both
    branches where the run tests a reply. *)
Ltac answer lib :=
  repeat (match goal with
          | |- context [lib ?c ?l] => destruct (lib c l); cbn
          end;
          repeat match goal with
                 | |- context [negb ?b] => is_var b; destruct b; cbn
                 end).

(** What an accessor of the connection's error does against a library:
    it asks [SQCloudIsError], and only when that holds asks [accessor] and
    returns its reply boxed by [box]; otherwise it returns [nothing]. *)
Definition answered_if_error {L : Type} (lib : Library L) (connection : pointer)
  (accessor : SQCloud) (box : reply accessor -> jvalue) (nothing : jvalue)
  (heap : Heap) (l : L) : Outcome jvalue L :=
  let e := lib (SQCloudIsError connection) l in
  if fst e then
    let r := lib accessor (snd e) in
    {| returned := Some (box (fst r));
       trace := [called (SQCloudIsError connection); called accessor];
       heap_after := heap;
       library_after := snd r |}
  else
    {| returned := Some nothing;
       trace := [called (SQCloudIsError connection)];
       heap_after := heap;
       library_after := snd e |}.

(** The configuration [doConnect] builds from its arguments. *)
Definition doConnect_config (username password database : jstring)
  (timeout family : jint)
  (compression sqlite_mode zero_text password_hashed nonlinearizable
     db_memory no_blob db_create : jboolean)
  (max_data max_rows max_rowset : jint)
  (tls_root_certificate tls_certificate tls_certificate_key : jstring)
  (insecure : jboolean) : SQCloudConfig.t :=
  {| SQCloudConfig.username := converted username;
     SQCloudConfig.password := converted password;
     SQCloudConfig.database := converted database;
     SQCloudConfig.timeout := timeout;
     SQCloudConfig.family := family;
     SQCloudConfig.compression := static_cast_bool compression;
     SQCloudConfig.sqlite_mode := static_cast_bool sqlite_mode;
     SQCloudConfig.zero_text := static_cast_bool zero_text;
     SQCloudConfig.password_hashed := static_cast_bool password_hashed;
     SQCloudConfig.nonlinearizable := static_cast_bool nonlinearizable;
     SQCloudConfig.db_memory := static_cast_bool db_memory;
     SQCloudConfig.no_blob := static_cast_bool no_blob;
     SQCloudConfig.db_create := static_cast_bool db_create;
     SQCloudConfig.max_data := max_data;
     SQCloudConfig.max_rows := max_rows;
     SQCloudConfig.max_rowset := max_rowset;
     SQCloudConfig.tls_root_certificate := converted tls_root_certificate;
     SQCloudConfig.tls_certificate := converted tls_certificate;
     SQCloudConfig.tls_certificate_key := converted tls_certificate_key;
     SQCloudConfig.insecure := static_cast_bool insecure |}.

(** The UTF-16 code units of a host string of ASCII characters. *)
Definition units_of_string (s : string) : list Z :=
  map (fun a => Z.of_nat (Ascii.nat_of_ascii a)) (list_ascii_of_string s).

Section DeclaredTypes.
Context `{sqcloud_h}.

(** A parameter the loop of [executeArrayCommand] can convert under its
    declared type: anything under VALUE_BLOB, a string under any other. *)
Definition well_kinded (type : Z) (param : jobject) : Prop :=
  type = VALUE_BLOB \/ exists units, param = JavaString units.

(** The value pointer and the length the loop stores for a parameter. *)
Definition slot (env : JNIEnv) (type : Z) (param : jobject) : param_ptr * Z :=
  if type =? VALUE_BLOB then
    (buffer_ptr (JNI.GetDirectBufferAddress env param),
     uint32_t (JNI.GetDirectBufferCapacity env param))
  else
    match param with
    | JavaString units =>
        (chars_ptr (Some (JNI.utf_of_units units)),
         uint32_t (JNI.GetStringLength env units))
    | _ => (chars_ptr None, 0)
    end.

(** The buffer the loop acquires for a parameter. *)
Definition slot_buffer (type : Z) (param : jobject) : Heap :=
  if type =? VALUE_BLOB then []
  else
    match param with
    | JavaString units => [StringUTFChars (JNI.utf_of_units units)]
    | _ => []
    end.

End DeclaredTypes.


(** ** Vocabulary of further properties *)

(** The connection a native call is made on, when it takes one. *)
Definition connection_of (c : SQCloud) : option pointer :=
  match c with
  | SQCloudDisconnect p | SQCloudIsError p | SQCloudIsSQLiteError p
  | SQCloudErrorCode p | SQCloudErrorMsg p | SQCloudExtendedErrorCode p
  | SQCloudErrorOffset p | SQCloudSetPubSubCallback p _ _
  | SQCloudSetPubSubOnly p | SQCloudUUID p | SQCloudExec p _
  | SQCloudExecArray p _ _ _ _ _ | SQCloudUploadDatabase p _ _ _ _ _
  | SQCloudDownloadDatabase p _ _ _ | SQCloudBlobOpen p _ _ _ _ _
  | SQCloudVMCompile p _ _ _ => Some p
  | _ => None
  end.

(** The result, blob or VM a native call is made on, when it takes one. *)
Definition handle_of (c : SQCloud) : option pointer :=
  match c with
  | SQCloudVMErrorCode p | SQCloudVMErrorMsg p
  | SQCloudResultFree p | SQCloudResultType p | SQCloudResultInt32 p
  | SQCloudResultInt64 p | SQCloudResultDouble p | SQCloudResultBuffer p
  | SQCloudResultLen p | SQCloudArrayCount p | SQCloudArrayValueType p _
  | SQCloudArrayInt64Value p _ | SQCloudArrayDoubleValue p _
  | SQCloudArrayValue p _ | SQCloudRowsetRows p | SQCloudRowsetCols p
  | SQCloudRowsetColumnName p _ | SQCloudRowsetValueType p _ _
  | SQCloudRowsetInt64Value p _ _ | SQCloudRowsetDoubleValue p _ _
  | SQCloudRowsetValue p _ _
  | SQCloudBlobReOpen p _ | SQCloudBlobClose p | SQCloudBlobBytes p
  | SQCloudBlobRead p _ _ _ | SQCloudBlobWrite p _ _ _
  | SQCloudVMBindInt p _ _ | SQCloudVMBindInt64 p _ _
  | SQCloudVMBindDouble p _ _ | SQCloudVMBindText p _ _ _
  | SQCloudVMBindBlob p _ _ _ | SQCloudVMBindZeroBlob p _ _
  | SQCloudVMBindNull p _ | SQCloudVMStep p | SQCloudVMClose p
  | SQCloudVMColumnCount p | SQCloudVMLastRowID p | SQCloudVMChanges p
  | SQCloudVMTotalChanges p | SQCloudVMIsReadOnly p | SQCloudVMIsExplain p
  | SQCloudVMIsFinalized p | SQCloudVMBindParameterCount p
  | SQCloudVMBindParameterIndex p _ | SQCloudVMBindParameterName p _
  | SQCloudVMColumnType p _ | SQCloudVMResult p | SQCloudVMColumnInt64 p _
  | SQCloudVMColumnDouble p _ | SQCloudVMColumnText p _
  | SQCloudVMColumnBlob p _ => Some p
  | _ => None
  end.

(** The boxed result, blob or VM an invocation is given, when it takes one. *)
Definition given_handle (i : Invocation) : option jobject :=
  match i with
  | vmErrorCode h | vmErrorMessage h
  | freeResult h | resultType h | intResult h | longResult h | doubleResult h
  | stringResult h | bufferResult h | arrayResultSize h
  | arrayResultValueType h _ | arrayResultLongValue h _
  | arrayResultDoubleValue h _ | arrayResultStringValue h _
  | arrayResultBufferValue h _ | rowsetResultRowCount h
  | rowsetResultColumnCount h | rowsetResultColumnName h _
  | rowsetResultValueType h _ _ | rowsetResultLongValue h _ _
  | rowsetResultDoubleValue h _ _ | rowsetResultStringValue h _ _
  | rowsetResultBufferValue h _ _
  | reopenBlob h _ | closeBlob h | blobFieldSize h | readBlob h _ | writeBlob h _
  | vmBindInt h _ _ | vmBindInt64 h _ _ | vmBindDouble h _ _
  | vmBindText h _ _ _ | vmBindBlob h _ _ | vmBindZeroBlob h _ | vmBindNull h _
  | vmStep h | vmClose h | vmColumnCount h | vmLastRowID h | vmChanges h
  | vmTotalChanges h | vmIsReadOnly h | vmIsExplain h | vmIsFinalized h
  | vmBindParameterCount h | vmBindParameterIndex h _
  | vmBindParameterName h _ | vmColumnType h _ | vmResult h
  | rowsetColumnName h _ | vmColumnInt64 h _ | vmColumnDouble h _
  | vmColumnText h _ | vmColumnBlob h _ => Some h
  | _ => None
  end.

(** Invocations that work on the connection stored in the bridge object. *)
Definition uses_connection (i : Invocation) : bool :=
  match i with
  | doDisconnect | isError | isSQLiteError | errorCode | errorMessage
  | extendedErrorCode | errorOffset | setPubSubCallback | setPubSubOnly
  | getClientUUID | executeCommand _ | executeArrayCommand _ _ _
  | uploadDatabase _ _ _ _ _ | downloadDatabase _ _ _ | openBlob _ _ _ _ _
  | vmCompile _ => true
  | _ => false
  end.

(** Invocations that return a native pointer in a box. *)
Definition boxes_reply (i : Invocation) : bool :=
  match i with
  | doConnect _ _ _ _ _ _ _ _ _ _ _ _ _ _ _ _ _ _ _ _ _ _
  | setPubSubOnly | executeCommand _ | executeArrayCommand _ _ _
  | openBlob _ _ _ _ _ | vmCompile _ | vmResult _ => true
  | _ => false
  end.

(** The pointer a native call returns, when it returns one. *)
Definition pointer_reply (c : SQCloud) : reply c -> option pointer :=
  match c as c' return reply c' -> option pointer with
  | SQCloudConnect _ _ _ | SQCloudSetPubSubOnly _ | SQCloudExec _ _
  | SQCloudExecArray _ _ _ _ _ _ | SQCloudBlobOpen _ _ _ _ _ _
  | SQCloudVMCompile _ _ _ _ | SQCloudVMResult _ => fun r => Some r
  | _ => fun _ => None
  end.

(** The host strings an invocation converts with [cString], in the order
    the source lists them; the parameters of [executeArrayCommand] are not
    among them. *)
Definition string_arguments (i : Invocation) : list jstring :=
  match i with
  | doConnect hostname _ username password database _ _ _ _ _ _ _ _ _ _ _ _ _
      tls_root_certificate tls_certificate tls_certificate_key _ =>
      [username; password; database; tls_root_certificate; tls_certificate;
       tls_certificate_key; hostname]
  | executeCommand query | executeArrayCommand query _ _ | vmCompile query =>
      [query]
  | uploadDatabase name encryption_key _ _ _ => [name; encryption_key]
  | downloadDatabase name _ _ => [name]
  | openBlob schema table column _ _ => [schema; table; column]
  | vmBindText _ _ value _ => [value]
  | vmBindParameterIndex _ name => [name]
  | _ => []
  end.

Definition array_command (i : Invocation) : bool :=
  match i with
  | executeArrayCommand _ _ _ => true
  | _ => false
  end.

(** What the bridge fixes in a call of [SQCloudVMCompile]: the length -1
    and no tail pointer. *)
Definition fixed_compile_arguments (c : SQCloud) : Prop :=
  match c with
  | SQCloudVMCompile _ _ len tail => len = -1 /\ tail = nullptr
  | _ => True
  end.

(** The records a sequence of invocations registers. *)
Definition registrations
  (invocations : list (JNIEnv * SQLiteCloudBridge * Invocation))
  : list PubSubData.t :=
  flat_map (fun call => registration (fst (fst call)) (snd (fst call)) (snd call))
    invocations.

Section ParameterKinds.
Context `{sqcloud_h}.

Definition is_string (param : jobject) : bool :=
  match param with
  | JavaString _ => true
  | _ => false
  end.

(** Whether the loop of [executeArrayCommand], from index [i] on, finds a
    declared type for each parameter and a string wherever the type is not
    VALUE_BLOB. *)
Fixpoint kinds_match (paramTypes : list Z) (i : nat) (params : list jobject)
  : bool :=
  match params with
  | [] => true
  | param :: rest =>
      match nth_error paramTypes i with
      | None => false
      | Some type =>
          ((type =? VALUE_BLOB) || is_string param)
          && kinds_match paramTypes (S i) rest
      end
  end.

End ParameterKinds.

(** The same strings in the order the build converts them: where they are
    arguments of one call, the order the compiler gave them. *)
Definition conversions `{compiler} (i : Invocation) : list jstring :=
  match i with
  | uploadDatabase name encryption_key _ _ _ =>
      in_order2 SQCloudUploadDatabase_arguments name encryption_key
  | openBlob schema table column _ _ =>
      in_order3 SQCloudBlobOpen_arguments schema table column
  | _ => string_arguments i
  end.

(** What a call other than [executeArrayCommand] leaves on the heap: a
    buffer for each string argument that is not null, in the order the
    build converts them, and the record it registers. *)
Definition left_behind `{compiler}
  (call : JNIEnv * SQLiteCloudBridge * Invocation) : Heap :=
  flat_map conversion_buffer (conversions (snd call))
  ++ map new_PubSubData (registration (fst (fst call)) (snd (fst call)) (snd call)).

(** The C strings a native call is given, in the order the source lists
    them. *)
Definition strings_of (c : SQCloud) : list cstring :=
  match c with
  | SQCloudConnect hostname _ config =>
      [SQCloudConfig.username config; SQCloudConfig.password config;
       SQCloudConfig.database config;
       SQCloudConfig.tls_root_certificate config;
       SQCloudConfig.tls_certificate config;
       SQCloudConfig.tls_certificate_key config; hostname]
  | SQCloudExec _ command | SQCloudExecArray _ command _ _ _ _ => [command]
  | SQCloudUploadDatabase _ dbname key _ _ _ => [dbname; key]
  | SQCloudDownloadDatabase _ dbname _ _ => [dbname]
  | SQCloudBlobOpen _ dbname tablename colname _ _ => [dbname; tablename; colname]
  | SQCloudVMBindText _ _ value _ => [value]
  | SQCloudVMCompile _ sql _ _ => [sql]
  | SQCloudVMBindParameterIndex _ name => [name]
  | _ => []
  end.

(** The row, column and parameter positions and the row identifiers a
    native call is given. *)
Definition positions_of (c : SQCloud) : list Z :=
  match c with
  | SQCloudArrayValueType _ index | SQCloudArrayInt64Value _ index
  | SQCloudArrayDoubleValue _ index | SQCloudArrayValue _ index
  | SQCloudRowsetColumnName _ index
  | SQCloudVMBindInt _ index _ | SQCloudVMBindInt64 _ index _
  | SQCloudVMBindDouble _ index _ | SQCloudVMBindText _ index _ _
  | SQCloudVMBindBlob _ index _ _ | SQCloudVMBindZeroBlob _ index _
  | SQCloudVMBindNull _ index | SQCloudVMBindParameterName _ index
  | SQCloudVMColumnType _ index | SQCloudVMColumnInt64 _ index
  | SQCloudVMColumnDouble _ index | SQCloudVMColumnText _ index
  | SQCloudVMColumnBlob _ index => [index]
  | SQCloudRowsetValueType _ row col | SQCloudRowsetInt64Value _ row col
  | SQCloudRowsetDoubleValue _ row col | SQCloudRowsetValue _ row col =>
      [row; col]
  | SQCloudBlobOpen _ _ _ _ rowid _ | SQCloudBlobReOpen _ rowid => [rowid]
  | _ => []
  end.

(** The positions and row identifiers an invocation is given. *)
Definition position_arguments (i : Invocation) : list Z :=
  match i with
  | arrayResultValueType _ index | arrayResultLongValue _ index
  | arrayResultDoubleValue _ index | arrayResultStringValue _ index
  | arrayResultBufferValue _ index | rowsetResultColumnName _ index
  | rowsetColumnName _ index
  | vmBindInt _ index _ | vmBindInt64 _ index _ | vmBindDouble _ index _
  | vmBindText _ index _ _ | vmBindBlob _ index _ | vmBindZeroBlob _ index
  | vmBindNull _ index | vmBindParameterName _ index | vmColumnType _ index
  | vmColumnInt64 _ index | vmColumnDouble _ index | vmColumnText _ index
  | vmColumnBlob _ index => [index]
  | rowsetResultValueType _ row column | rowsetResultLongValue _ row column
  | rowsetResultDoubleValue _ row column | rowsetResultStringValue _ row column
  | rowsetResultBufferValue _ row column => [row; column]
  | openBlob _ _ _ row_id _ | reopenBlob _ row_id => [row_id]
  | _ => []
  end.

(** ** The native API behind each exported function

    What the interface promises of an exported function, written without
    the function's code: the native call it stands for, or the two calls,
    with the converted arguments, and the host value made of the reply. *)






Section Corresponding.
Context `{sqcloud_h}.




End Corresponding.


(** * Properties of the bridge *)

(** ** The model at work *)

(** U+0041 takes one byte, U+00E9 two, U+20AC three, and NUL two. *)
Example utf_of_sample_units :
  JNI.utf_of_units [65; 233; 8364; 0] = [65; 195; 169; 226; 130; 172; 192; 128].
Proof. reflexivity. Qed.

Example units_of_sample_utf :
  JNI.units_of_utf [65; 195; 169; 226; 130; 172; 192; 128] = [65; 233; 8364; 0].
Proof. reflexivity. Qed.

(** [executeCommand] converts the query, calls [SQCloudExec] on the stored
    connection and boxes the result; the query's buffer stays acquired. *)
Example executeCommand_runs :
  let answering : Library unit :=
    fun c l =>
      (match c as c' return reply c' with
       | SQCloudExec _ _ => 12288
       | c' => zero_reply c'
       end, l) in
  run sample_jvm answering
    (@bridge sample_header sample_compiler 7 sample_bridge
       (executeCommand (Some (units_of_string "SELECT 1")))) [] tt
  = {| returned := Some (of_jobject (DirectByteBuffer 12288 sizeof_pointer));
       trace := [called (SQCloudExec 4096 (Some [83; 69; 76; 69; 67; 84; 32; 49]))];
       heap_after := [StringUTFChars [83; 69; 76; 69; 67; 84; 32; 49]];
       library_after := tt |}.
Proof. reflexivity. Qed.

(** A parameter that is no string, declared of a text type, leaves the JNI
    contract before anything is called. *)
Example executeArrayCommand_leaves_contract :
  run sample_jvm healthy_library
    (@bridge sample_header sample_compiler 7 sample_bridge
       (executeArrayCommand (Some (units_of_string "SELECT ?")) [null] [3])) [] tt
  = {| returned := None;
       trace := [];
       heap_after := [StringUTFChars [83; 69; 76; 69; 67; 84; 32; 63];
                      calloc 1 sizeof_pointer; calloc 1 4; IntArrayElements [3]];
       library_after := tt |}.
Proof. reflexivity. Qed.

(** ** How programs run *)

Lemma outcome_eta {A L : Type} (o : Outcome A L) :
  {| returned := returned o; trace := trace o;
     heap_after := heap_after o; library_after := library_after o |} = o.
Proof. destruct o; reflexivity. Qed.

Lemma and_then_after {A B L : Type} (e : Event) (o : Outcome A L)
  (rest : A -> Heap -> L -> Outcome B L) :
  and_then (after e o) rest = after e (and_then o rest).
Proof.
  unfold and_then, after; simpl.
  destruct (returned o); reflexivity.
Qed.

(** Running a sequence is running its parts in turn. *)
Lemma run_bind {A B L : Type} (jvm : JVM) (lib : Library L) (p : Prog A)
  (f : A -> Prog B) :
  forall heap l,
    run jvm lib (bind p f) heap l =
    and_then (run jvm lib p heap l) (fun a h l' => run jvm lib (f a) h l').
Proof.
  induction p as [a| |b k IH|a k IH|c k IH|u k IH]; intros heap l; simpl.
  - unfold and_then; simpl. now rewrite outcome_eta.
  - reflexivity.
  - apply IH.
  - destruct (block_at heap a) as [[d| | |]|]; try reflexivity. apply IH.
  - destruct (lib c l) as [r l']. rewrite IH. now rewrite and_then_after.
  - destruct (permitted jvm u); [|reflexivity].
    rewrite IH. now rewrite and_then_after.
Qed.

(** Nothing the bridge acquires is ever given back: a run only appends to
    the heap. *)
Lemma run_extends_heap {A L : Type} (jvm : JVM) (lib : Library L) (p : Prog A) :
  forall heap l, exists acquired,
    heap_after (run jvm lib p heap l) = heap ++ acquired.
Proof.
  induction p as [a| |b k IH|a k IH|c k IH|u k IH]; intros heap l; simpl.
  - exists []. now rewrite app_nil_r.
  - exists []. now rewrite app_nil_r.
  - destruct (IH (block_address (length heap)) (heap ++ [b]) l) as [acq E].
    exists (b :: acq). rewrite E. now rewrite <- app_assoc.
  - destruct (block_at heap a) as [[d| | |]|];
      try (exists []; simpl; now rewrite app_nil_r).
    apply IH.
  - destruct (lib c l) as [r l']. simpl. apply IH.
  - destruct (permitted jvm u); [apply IH|].
    exists []. simpl. now rewrite app_nil_r.
Qed.

(** A block keeps its address while the heap grows. *)
Lemma block_at_extended (heap extra : Heap) (n : nat) (b : Block) :
  nth_error heap n = Some b ->
  block_at (heap ++ extra) (block_address n) = Some b.
Proof.
  intros E. unfold block_at, block_address.
  replace (Z.of_nat n + 1 <=? 0) with false by (symmetry; apply Z.leb_gt; lia).
  replace (Z.to_nat (Z.of_nat n + 1 - 1)) with n by lia.
  rewrite nth_error_app1; [assumption|].
  apply nth_error_Some. congruence.
Qed.

(** Running a function for the host is running it and converting what it
    returns. *)
Lemma run_returning {A L : Type} (jvm : JVM) (lib : Library L) (to_host : A -> jvalue)
  (p : Prog A) (heap : Heap) (l : L) :
  run jvm lib (returning to_host p) heap l
  = {| returned := option_map to_host (returned (run jvm lib p heap l));
       trace := trace (run jvm lib p heap l);
       heap_after := heap_after (run jvm lib p heap l);
       library_after := library_after (run jvm lib p heap l) |}.
Proof.
  unfold returning. rewrite run_bind. unfold and_then.
  destruct (returned (run jvm lib p heap l)); cbn; [|reflexivity].
  now rewrite app_nil_r.
Qed.

(** ** Argument conversion *)

Lemma pubsub_records_app (h1 h2 : Heap) :
  pubsub_records (h1 ++ h2) = pubsub_records h1 ++ pubsub_records h2.
Proof. unfold pubsub_records. apply flat_map_app. Qed.

(** [cString] calls nothing; it acquires one buffer for a string that is
    not null. *)
Lemma run_cString {L : Type}
  (jvm : JVM) (lib : Library L) (env : JNIEnv) (str : jstring)
  (heap : Heap) (l : L) :
  run jvm lib (cString env str) heap l
  = stop (Some (converted str)) (heap ++ conversion_buffer str) l.
Proof.
  destruct str as [units|]; simpl; [reflexivity|].
  now rewrite app_nil_r.
Qed.

(** ** Pointer boxes *)

Lemma wrapPointer_null (env : JNIEnv) : wrapPointer env nullptr = null.
Proof. reflexivity. Qed.

Lemma wrapPointer_nonnull (env : JNIEnv) (p : pointer) :
  p <> nullptr -> wrapPointer env p = DirectByteBuffer p sizeof_pointer.
Proof.
  intros Hp. unfold wrapPointer.
  destruct (p =? nullptr) eqn:E; [apply Z.eqb_eq in E; contradiction|reflexivity].
Qed.

(** The box is null only for the null pointer. *)
Lemma wrapPointer_null_iff (env : JNIEnv) (p : pointer) :
  wrapPointer env p = null <-> p = nullptr.
Proof.
  unfold wrapPointer. destruct (p =? nullptr) eqn:E.
  - apply Z.eqb_eq in E. tauto.
  - apply Z.eqb_neq in E. split; [discriminate|contradiction].
Qed.

(** Unboxing what was boxed gives the pointer back, the null pointer
    included: the null reference has no buffer address. *)
Lemma unwrapPointer_wrapPointer (env : JNIEnv) (p : pointer) :
  unwrapPointer env (wrapPointer env p) = p.
Proof.
  unfold unwrapPointer, wrapPointer.
  destruct (p =? nullptr) eqn:E; simpl; [|reflexivity].
  apply Z.eqb_eq in E. now subst.
Qed.

(** C7: boxing a native pointer and unboxing it gives the pointer back.
    For every non-null pointer [p], [unwrapPointer (wrapPointer p)] is [p],
    and so are [unwrapResult], [unwrapBlob] and [unwrapVM] of the box; the
    null pointer is boxed as the null reference. *)
Theorem wrap_unwrap_roundtrip (env : JNIEnv) (p : pointer) :
  p <> nullptr ->
  wrapPointer env p <> null /\
  unwrapPointer env (wrapPointer env p) = p /\
  unwrapResult env (wrapPointer env p) = p /\
  unwrapBlob env (wrapPointer env p) = p /\
  unwrapVM env (wrapPointer env p) = p /\
  wrapPointer env nullptr = null.
Proof.
  intros Hp. split.
  - rewrite wrapPointer_null_iff. exact Hp.
  - unfold unwrapResult, unwrapBlob, unwrapVM.
    rewrite unwrapPointer_wrapPointer. repeat split.
Qed.

Lemma wrap_unwrap_roundtrip_witness :
  4096 <> nullptr /\
  (wrapPointer 7 4096 <> null /\
   unwrapPointer 7 (wrapPointer 7 4096) = 4096 /\
   unwrapResult 7 (wrapPointer 7 4096) = 4096 /\
   unwrapBlob 7 (wrapPointer 7 4096) = 4096 /\
   unwrapVM 7 (wrapPointer 7 4096) = 4096 /\
   wrapPointer 7 nullptr = null).
Proof.
  split; [discriminate|].
  apply (wrap_unwrap_roundtrip 7 4096). discriminate.
Defined.

(** ** Connecting *)

Lemma converted_null_iff (str : jstring) : converted str = None <-> str = None.
Proof. destruct str; cbn; split; (reflexivity || discriminate). Qed.

(** [doConnect] in closed form: the one call it makes and what it returns. *)
Lemma run_doConnect {L : Type} (jvm : JVM) (lib : Library L) (env : JNIEnv)
  (thiz : SQLiteCloudBridge) (hostname : jstring) (port : jint)
  (username password database : jstring) (timeout family : jint)
  (compression sqlite_mode zero_text password_hashed nonlinearizable
     db_memory no_blob db_create : jboolean)
  (max_data max_rows max_rowset : jint)
  (tls_root_certificate tls_certificate tls_certificate_key : jstring)
  (insecure : jboolean) (heap : Heap) (l : L) :
  let config :=
    doConnect_config username password database timeout family compression
      sqlite_mode zero_text password_hashed nonlinearizable db_memory no_blob
      db_create max_data max_rows max_rowset tls_root_certificate
      tls_certificate tls_certificate_key insecure in
  let c := SQCloudConnect (converted hostname) port config in
  let o :=
    run jvm lib
      (Java_io_sqlitecloud_SQLiteCloudBridge_doConnect env thiz hostname port
         username password database timeout family compression sqlite_mode
         zero_text password_hashed nonlinearizable db_memory no_blob db_create
         max_data max_rows max_rowset tls_root_certificate tls_certificate
         tls_certificate_key insecure) heap l in
  returned o = Some (wrapPointer env (fst (lib c l))) /\
  trace o = [called c] /\
  library_after o = snd (lib c l).
Proof.
  cbv zeta. unfold doConnect_config, converted. split_strings; cbn;
    match goal with |- context [lib ?c l] => destruct (lib c l) end;
    cbn; repeat split; reflexivity.
Qed.

(** C5 as stated fails on the count: the configuration [doConnect] passes
    has nine boolean members, not thirteen. *)
Lemma doConnect_config_has_nine_flags :
  let hostname := Some (units_of_string "db.example.org") in
  let user := Some (units_of_string "admin") in
  exists config : SQCloudConfig.t,
    trace (run sample_jvm healthy_library
             (@bridge sample_header sample_compiler 7 unconnected_bridge
                (doConnect hostname 8860 user user None 30 0
                   1 0 0 0 0 0 0 1 0 0 0 None None None 0)) [] tt)
    = [called (SQCloudConnect (converted hostname) 8860 config)] /\
    SQCloudConfig.boolean_flags config
    = [true; false; false; false; false; false; false; true; false] /\
    length (SQCloudConfig.boolean_flags config) = 9%nat.
Proof.
  cbv zeta. eexists. split; [reflexivity|]. split; reflexivity.
Qed.

(** C5, amended: [doConnect] builds a configuration in which each of the
    nine boolean flags is the corresponding [jboolean] argument cast to
    [bool], each integer field is the corresponding [jint] argument, and
    each optional string field is the null pointer exactly when the host
    passed null; it calls [SQCloudConnect] once, with the converted host
    name, the port and that configuration, and returns the null reference
    if and only if [SQCloudConnect] returned the null pointer, and
    otherwise a box of the connection pointer. *)
Theorem doConnect_marshals_config `{sqcloud_h} `{compiler} {L : Type}
  (jvm : JVM) (lib : Library L)
  (env : JNIEnv) (thiz : SQLiteCloudBridge) (hostname : jstring) (port : jint)
  (username password database : jstring) (timeout family : jint)
  (compression sqlite_mode zero_text password_hashed nonlinearizable
     db_memory no_blob db_create : jboolean)
  (max_data max_rows max_rowset : jint)
  (tls_root_certificate tls_certificate tls_certificate_key : jstring)
  (insecure : jboolean) (heap : Heap) (l : L) :
  let o :=
    run jvm lib
      (bridge env thiz
         (doConnect hostname port username password database timeout family
            compression sqlite_mode zero_text password_hashed nonlinearizable
            db_memory no_blob db_create max_data max_rows max_rowset
            tls_root_certificate tls_certificate tls_certificate_key insecure))
      heap l in
  exists config : SQCloudConfig.t,
    let c := SQCloudConnect (converted hostname) port config in
    let connection := fst (lib c l) in
    trace o = [called c] /\
    SQCloudConfig.boolean_flags config
    = map static_cast_bool
        [compression; sqlite_mode; zero_text; password_hashed; nonlinearizable;
         db_memory; no_blob; db_create; insecure] /\
    SQCloudConfig.integer_fields config
    = [timeout; family; max_data; max_rows; max_rowset] /\
    SQCloudConfig.username config = converted username /\
    SQCloudConfig.password config = converted password /\
    SQCloudConfig.optional_strings config
    = map converted
        [database; tls_root_certificate; tls_certificate; tls_certificate_key] /\
    (SQCloudConfig.database config = None <-> database = None) /\
    (SQCloudConfig.tls_root_certificate config = None
     <-> tls_root_certificate = None) /\
    (SQCloudConfig.tls_certificate config = None <-> tls_certificate = None) /\
    (SQCloudConfig.tls_certificate_key config = None
     <-> tls_certificate_key = None) /\
    (returned o = Some (of_jobject null) <-> connection = nullptr) /\
    (connection <> nullptr ->
     returned o = Some (of_jobject (DirectByteBuffer connection sizeof_pointer))).
Proof.
  intros o.
  exists (doConnect_config username password database timeout family
            compression sqlite_mode zero_text password_hashed nonlinearizable
            db_memory no_blob db_create max_data max_rows max_rowset
            tls_root_certificate tls_certificate tls_certificate_key insecure).
  intros c connection.
  destruct (run_doConnect jvm lib env thiz hostname port username password database
              timeout family compression sqlite_mode zero_text password_hashed
              nonlinearizable db_memory no_blob db_create max_data max_rows
              max_rowset tls_root_certificate tls_certificate
              tls_certificate_key insecure heap l) as (Hret & Htrace & _).
  assert (Ho : returned o = Some (of_jobject (wrapPointer env connection))).
  { subst o connection c. cbn [bridge]. rewrite run_returning, Hret. reflexivity. }
  split.
  { subst o c. cbn [bridge]. rewrite run_returning. exact Htrace. }
  do 5 (split; [reflexivity|]).
  do 4 (split; [apply converted_null_iff|]).
  rewrite Ho. split.
  - split; intros E.
    + injection E as E. now apply wrapPointer_null_iff in E.
    + apply (wrapPointer_null_iff env) in E. now rewrite E.
  - intros Hc. now rewrite (wrapPointer_nonnull env connection Hc).
Qed.

Lemma doConnect_marshals_config_witness :
  let connected : Library unit :=
    fun c l =>
      (match c as c' return reply c' with
       | SQCloudConnect _ _ _ => 4096
       | c' => zero_reply c'
       end, l) in
  let hostname := Some (units_of_string "db.example.org") in
  let user := Some (units_of_string "admin") in
  returned (run (native_method 7 unconnected_bridge) connected
              (@bridge sample_header sample_compiler 7 unconnected_bridge
                 (doConnect hostname 8860 user user None 30 0
                    1 0 0 0 0 0 0 1 0 0 0 None None None 0)) [] tt)
  = Some (of_jobject (DirectByteBuffer 4096 sizeof_pointer)).
Proof.
  cbv zeta.
  pose proof (@doConnect_marshals_config sample_header sample_compiler unit
                (native_method 7 unconnected_bridge)
                (fun c l =>
                   (match c as c' return reply c' with
                    | SQCloudConnect _ _ _ => 4096
                    | c' => zero_reply c'
                    end, l))
                7 unconnected_bridge (Some (units_of_string "db.example.org"))
                8860 (Some (units_of_string "admin"))
                (Some (units_of_string "admin")) None 30 0
                1 0 0 0 0 0 0 1 0 0 0 None None None 0 [] tt) as Hspec.
  cbv zeta in Hspec.
  destruct Hspec as (config & Hc).
  decompose [and] Hc. clear Hc.
  match goal with
  | Hbox : _ <> nullptr -> returned _ = Some _,
    Htrace : trace _ = [called _] |- _ =>
      cbn in Htrace; injection Htrace as Hconfig; subst config;
      apply Hbox; discriminate
  end.
Defined.

(** ** The accessors of the connection's error *)


(** An accessor returns [nothing] when no error is reported, and otherwise
    only when the boxed reply is [nothing] itself. *)
Lemma answered_if_error_null_iff {L : Type} (lib : Library L)
  (connection : pointer) (accessor : SQCloud) (box : reply accessor -> jvalue)
  (nothing : jvalue) (heap : Heap) (l : L) :
  returned (answered_if_error lib connection accessor box nothing heap l)
  = Some nothing
  <-> fst (lib (SQCloudIsError connection) l) = false
      \/ box (fst (lib accessor (snd (lib (SQCloudIsError connection) l))))
         = nothing.
Proof.
  unfold answered_if_error.
  destruct (fst (lib (SQCloudIsError connection) l)); cbn.
  - split.
    + intros E. injection E as E. now right.
    + intros [E|E]; [discriminate E | now rewrite E].
  - split; [now left | reflexivity].
Qed.

(** A message is the null reference only when the library gave the NULL
    pointer. *)
Lemma NewStringUTF_null_iff (env : JNIEnv) (message : char_ptr) :
  of_jstring (JNI.NewStringUTF env message) = of_jstring None
  <-> address message = nullptr.
Proof.
  unfold JNI.NewStringUTF.
  destruct (address message =? nullptr) eqn:E.
  - apply Z.eqb_eq in E. tauto.
  - apply Z.eqb_neq in E. split; [discriminate | contradiction].
Qed.

(** C4 as stated fails for [errorMessage]: on a connection in the error
    state whose [SQCloudErrorMsg] is the NULL pointer, [errorMessage] asks
    both and returns the null reference although [SQCloudIsError] is true. *)
Lemma errorMessage_null_despite_error :
  let lib := failing_library 10002 {| address := nullptr; bytes := [] |} in
  let o :=
    run sample_jvm lib
      (@bridge sample_header sample_compiler 7 sample_bridge errorMessage) [] tt in
  fst (lib (SQCloudIsError 4096) tt) = true /\
  trace o = [called (SQCloudIsError 4096); called (SQCloudErrorMsg 4096)] /\
  returned o = Some (of_jstring None) /\
  ~ (returned o = Some (of_jstring None)
     <-> fst (lib (SQCloudIsError 4096) tt) = false).
Proof.
  cbv zeta. split; [reflexivity|]. split; [reflexivity|]. split; [reflexivity|].
  intros [Hnull _]. specialize (Hnull eq_refl). discriminate Hnull.
Qed.

(** C4, amended: [errorCode], [errorMessage], [extendedErrorCode] and
    [errorOffset] ask [SQCloudIsError] on the connection whose address the
    bridge object's [connection] buffer holds; when it is false they return
    the null reference, when it is true they return the boxed
    [SQCloudErrorCode], the string of [SQCloudErrorMsg], the boxed
    [SQCloudExtendedErrorCode] and the boxed [SQCloudErrorOffset].  They
    call nothing else and acquire nothing.  The three codes are null if and
    only if [SQCloudIsError] is false; the message is null if and only if
    [SQCloudIsError] is false or [SQCloudErrorMsg] gave the NULL pointer. *)
Theorem connection_error_accessors `{sqcloud_h} `{compiler} {L : Type}
  (jvm : JVM) (lib : Library L) (env : JNIEnv) (thiz : SQLiteCloudBridge)
  (heap : Heap) (l : L) :
  let stored := JNI.GetDirectBufferAddress env (connection thiz) in
  let is_error := fst (lib (SQCloudIsError stored) l) in
  let asked := snd (lib (SQCloudIsError stored) l) in
  let message := fst (lib (SQCloudErrorMsg stored) asked) in
  let integer (n : Z) := of_jobject (JNI.NewInteger env n) in
  let text (s : char_ptr) := of_jstring (JNI.NewStringUTF env s) in
  (run jvm lib (bridge env thiz errorCode) heap l
   = answered_if_error lib stored (SQCloudErrorCode stored)
       integer (of_jobject null) heap l /\
   run jvm lib (bridge env thiz errorMessage) heap l
   = answered_if_error lib stored (SQCloudErrorMsg stored)
       text (of_jstring None) heap l /\
   run jvm lib (bridge env thiz extendedErrorCode) heap l
   = answered_if_error lib stored (SQCloudExtendedErrorCode stored)
       integer (of_jobject null) heap l /\
   run jvm lib (bridge env thiz errorOffset) heap l
   = answered_if_error lib stored (SQCloudErrorOffset stored)
       integer (of_jobject null) heap l) /\
  (returned (run jvm lib (bridge env thiz errorCode) heap l)
   = Some (of_jobject null) <-> is_error = false) /\
  (returned (run jvm lib (bridge env thiz extendedErrorCode) heap l)
   = Some (of_jobject null) <-> is_error = false) /\
  (returned (run jvm lib (bridge env thiz errorOffset) heap l)
   = Some (of_jobject null) <-> is_error = false) /\
  (returned (run jvm lib (bridge env thiz errorMessage) heap l)
   = Some (of_jstring None)
   <-> is_error = false \/ address message = nullptr).
Proof.
  intros stored is_error asked message integer text.
  assert (Hruns :
    run jvm lib (bridge env thiz errorCode) heap l
    = answered_if_error lib stored (SQCloudErrorCode stored)
        integer (of_jobject null) heap l /\
    run jvm lib (bridge env thiz errorMessage) heap l
    = answered_if_error lib stored (SQCloudErrorMsg stored)
        text (of_jstring None) heap l /\
    run jvm lib (bridge env thiz extendedErrorCode) heap l
    = answered_if_error lib stored (SQCloudExtendedErrorCode stored)
        integer (of_jobject null) heap l /\
    run jvm lib (bridge env thiz errorOffset) heap l
    = answered_if_error lib stored (SQCloudErrorOffset stored)
        integer (of_jobject null) heap l).
  { unfold answered_if_error; subst stored; cbn. unfold getConnection.
    destruct (lib (SQCloudIsError _) l) as [[|] l1]; cbn;
      [|repeat split; reflexivity].
    repeat split;
      match goal with |- context [lib ?c l1] => destruct (lib c l1) end;
      reflexivity. }
  destruct Hruns as (Hcode & Hmessage & Hextended & Hoffset).
  split; [repeat split; assumption|].
  rewrite Hcode, Hmessage, Hextended, Hoffset.
  assert (Hcodes : forall (accessor : SQCloud) (box : reply accessor -> jvalue),
             (forall r, box r <> of_jobject null) ->
             returned (answered_if_error lib stored accessor box
                         (of_jobject null) heap l) = Some (of_jobject null)
             <-> is_error = false).
  { intros accessor box Hbox. rewrite answered_if_error_null_iff.
    split; [intros [E|E]; [exact E | now apply Hbox in E] | now left]. }
  assert (Hboxed : forall n, integer n <> of_jobject null).
  { intros n. subst integer. unfold JNI.NewInteger. discriminate. }
  split; [apply (Hcodes (SQCloudErrorCode stored) integer Hboxed)|].
  split; [apply (Hcodes (SQCloudExtendedErrorCode stored) integer Hboxed)|].
  split; [apply (Hcodes (SQCloudErrorOffset stored) integer Hboxed)|].
  rewrite answered_if_error_null_iff.
  subst text; cbn beta. rewrite NewStringUTF_null_iff. reflexivity.
Qed.

(** On a failing connection with a message, [errorMessage] returns the
    message as a host string. *)
Example errorMessage_of_failing_connection :
  let message := {| address := 8192; bytes := [111; 111; 112; 115] |} in
  returned (run sample_jvm (failing_library 10002 message)
              (@bridge sample_header sample_compiler 7 sample_bridge errorMessage)
              [] tt)
  = Some (of_jstring (Some [111; 111; 112; 115])).
Proof. reflexivity. Qed.

(** ** Guards on null handles *)

(** C9: [vmErrorCode] and [vmErrorMessage] return the null reference and
    call nothing when the VM handle unwraps to the null pointer, and
    [getClientUUID] does the same when the stored connection pointer is
    null: whatever the library, the run has an empty trace, and leaves the
    heap and the library as they were. *)
Theorem null_handle_guards `{sqcloud_h} `{compiler} {L : Type}
  (jvm : JVM) (lib : Library L)
  (env : JNIEnv) (thiz : SQLiteCloudBridge) (wrappedVM : jobject)
  (heap : Heap) (l : L) :
  (unwrapVM env wrappedVM = nullptr ->
   run jvm lib (bridge env thiz (vmErrorCode wrappedVM)) heap l
     = stop (Some (of_jobject null)) heap l /\
   run jvm lib (bridge env thiz (vmErrorMessage wrappedVM)) heap l
     = stop (Some (of_jstring None)) heap l) /\
  (getConnection env thiz = nullptr ->
   run jvm lib (bridge env thiz getClientUUID) heap l
     = stop (Some (of_jstring None)) heap l).
Proof.
  split.
  - intros Hvm. simpl.
    unfold Java_io_sqlitecloud_SQLiteCloudBridge_vmErrorCode,
      Java_io_sqlitecloud_SQLiteCloudBridge_vmErrorMessage.
    rewrite Hvm. split; reflexivity.
  - intros Hc. simpl.
    unfold Java_io_sqlitecloud_SQLiteCloudBridge_getClientUUID.
    rewrite Hc. reflexivity.
Qed.

Lemma null_handle_guards_witness :
  (unwrapVM 7 null = nullptr /\ getConnection 7 unconnected_bridge = nullptr) /\
  trace (run (native_method 7 unconnected_bridge) healthy_library
           (@bridge sample_header sample_compiler 7 unconnected_bridge
              (vmErrorCode null)) [] tt) = [] /\
  trace (run (native_method 7 unconnected_bridge) healthy_library
           (@bridge sample_header sample_compiler 7 unconnected_bridge
              getClientUUID) [] tt) = [].
Proof.
  split; [split; reflexivity|].
  destruct (@null_handle_guards sample_header sample_compiler unit
              (native_method 7 unconnected_bridge) healthy_library 7
              unconnected_bridge null [] tt) as [Hvm Hconn].
  destruct (Hvm eq_refl) as [Hcode _].
  rewrite Hcode, (Hconn eq_refl). split; reflexivity.
Defined.

(** ** What [executeArrayCommand] converts *)

Section ExecuteArrayFacts.
Context `{sqcloud_h} `{compiler}.

(** One turn of the loop calls nothing, whatever the library and the heap;
    what it acquires is a string buffer at most. *)
Lemma run_marshal_param (env : JNIEnv) (paramTypes : list Z) (i : nat)
  (param : jobject) :
  exists (slot : option (param_ptr * Z)) (acquired : Heap),
    pubsub_records acquired = [] /\
    forall (jvm : JVM) (L : Type) (lib : Library L) (heap : Heap) (l : L),
      run jvm lib (marshal_param env paramTypes i param) heap l
      = stop slot (heap ++ acquired) l.
Proof.
  unfold marshal_param.
  destruct (nth_error paramTypes i) as [type|].
  - destruct (type =? VALUE_BLOB).
    + eexists; exists []; split; [reflexivity|].
      intros; simpl. rewrite app_nil_r. reflexivity.
    + destruct param;
        try (exists None, []; split; [reflexivity|];
             intros; simpl; now rewrite app_nil_r).
      eexists; eexists; split; [|intros; simpl; reflexivity].
      reflexivity.
  - exists None, []; split; [reflexivity|].
    intros; simpl. now rewrite app_nil_r.
Qed.

(** So does the whole loop. *)
Lemma run_marshal_params (env : JNIEnv) (paramTypes : list Z)
  (params : list jobject) :
  forall i : nat,
  exists (slots : option (list param_ptr * list Z)) (acquired : Heap),
    pubsub_records acquired = [] /\
    forall (jvm : JVM) (L : Type) (lib : Library L) (heap : Heap) (l : L),
      run jvm lib (marshal_params env paramTypes i params) heap l
      = stop slots (heap ++ acquired) l.
Proof.
  induction params as [|param rest IH]; intros i.
  - exists (Some ([], [])), []; split; [reflexivity|].
    intros; simpl. now rewrite app_nil_r.
  - destruct (run_marshal_param env paramTypes i param)
      as (slot & acq1 & P1 & R1).
    destruct (IH (S i)) as (slots & acq2 & P2 & R2).
    destruct slot as [slot|].
    + destruct slots as [slots|].
      * exists (Some (fst slot :: fst slots, snd slot :: snd slots)), (acq1 ++ acq2).
        split; [rewrite pubsub_records_app, P1, P2; reflexivity|].
        intros. cbn [marshal_params].
        rewrite run_bind, R1. unfold and_then; cbn.
        rewrite run_bind, R2. unfold and_then; cbn.
        now rewrite app_assoc.
      * exists None, (acq1 ++ acq2).
        split; [rewrite pubsub_records_app, P1, P2; reflexivity|].
        intros. cbn [marshal_params].
        rewrite run_bind, R1. unfold and_then; cbn.
        rewrite run_bind, R2. unfold and_then; cbn.
        now rewrite app_assoc.
    + exists None, acq1. split; [exact P1|].
      intros. cbn [marshal_params].
      rewrite run_bind, R1. reflexivity.
Qed.

(** [executeArrayCommand] as a whole: it converts, and then either has left
    the JNI contract, having called nothing, or makes the one call of
    [SQCloudExecArray] and boxes its reply. *)
Lemma run_executeArrayCommand (env : JNIEnv) (thiz : SQLiteCloudBridge)
  (query : jstring) (params : list jobject) (param_types : list Z) :
  exists (slots : option (list param_ptr * list Z)) (acquired : Heap),
    pubsub_records acquired = [] /\
    forall (jvm : JVM) (L : Type) (lib : Library L) (heap : Heap) (l : L),
      run jvm lib (Java_io_sqlitecloud_SQLiteCloudBridge_executeArrayCommand
                 env thiz query params param_types) heap l
      = match slots with
        | None => stop None (heap ++ acquired) l
        | Some (values, lengths) =>
            let c := SQCloudExecArray (getConnection env thiz) (converted query)
                       values lengths param_types
                       (uint32_t (JNI.GetArrayLength env params)) in
            {| returned := Some (wrapPointer env (fst (lib c l)));
               trace := [called c];
               heap_after := heap ++ acquired;
               library_after := snd (lib c l) |}
        end.
Proof.
  destruct (run_marshal_params env param_types params 0%nat)
    as (slots & acq & P & R).
  pose (before := conversion_buffer query
                  ++ [calloc (uint32_t (JNI.GetArrayLength env params)) sizeof_pointer;
                      calloc (uint32_t (JNI.GetArrayLength env params)) 4;
                      IntArrayElements param_types]).
  assert (Pb : pubsub_records before = []).
  { unfold before. rewrite pubsub_records_app. destruct query; reflexivity. }
  destruct slots as [[values lengths]|].
  - exists (Some (values, lengths)), (before ++ acq ++ [IntArrayElements param_types]).
    split.
    { rewrite !pubsub_records_app, Pb, P. reflexivity. }
    intros. unfold Java_io_sqlitecloud_SQLiteCloudBridge_executeArrayCommand.
    destruct query as [units|]; cbn -[marshal_params uint32_t];
      rewrite run_bind, R; unfold and_then; cbn -[uint32_t];
      destruct (lib _ l) as [r l']; cbn -[uint32_t];
      unfold before; cbn -[uint32_t]; rewrite <- ?app_assoc; reflexivity.
  - exists None, (before ++ acq).
    split.
    { rewrite !pubsub_records_app, Pb, P. reflexivity. }
    intros. unfold Java_io_sqlitecloud_SQLiteCloudBridge_executeArrayCommand.
    destruct query as [units|]; cbn -[marshal_params uint32_t];
      rewrite run_bind, R; unfold and_then, before; cbn -[uint32_t];
      rewrite <- ?app_assoc; reflexivity.
Qed.

End ExecuteArrayFacts.

(** ** The loop of [executeArrayCommand] on parameters of the declared kinds *)

Section WellKindedParameters.
Context `{sqcloud_h} `{compiler}.

Lemma run_marshal_param_well_kinded {L : Type} (jvm : JVM) (lib : Library L)
  (env : JNIEnv) (paramTypes : list Z) (i : nat) (type : Z) (param : jobject)
  (heap : Heap) (l : L) :
  nth_error paramTypes i = Some type ->
  well_kinded type param ->
  run jvm lib (marshal_param env paramTypes i param) heap l
  = stop (Some (slot env type param)) (heap ++ slot_buffer type param) l.
Proof.
  intros Hnth Hkind. unfold marshal_param, slot, slot_buffer. rewrite Hnth.
  destruct (type =? VALUE_BLOB) eqn:E.
  - cbn. now rewrite app_nil_r.
  - destruct Hkind as [Hblob|[units ->]].
    + apply Z.eqb_neq in E. contradiction.
    + reflexivity.
Qed.

(** The loop fills one slot for each parameter, front to back, reading the
    declared type at the parameter's own index. *)
Lemma run_marshal_params_well_kinded {L : Type} (jvm : JVM) (lib : Library L)
  (env : JNIEnv) (types : list Z) (params : list jobject) :
  Forall2 well_kinded types params ->
  forall (done : list Z) (heap : Heap) (l : L),
    run jvm lib (marshal_params env (done ++ types) (length done) params) heap l
    = stop (Some (map (fun tp => fst (slot env (fst tp) (snd tp)))
                    (combine types params),
                  map (fun tp => snd (slot env (fst tp) (snd tp)))
                    (combine types params)))
        (heap ++ flat_map (fun tp => slot_buffer (fst tp) (snd tp))
                   (combine types params)) l.
Proof.
  induction 1 as [|type param types params Hkind _ IH]; intros done heap l.
  - cbn. now rewrite app_nil_r.
  - cbn [marshal_params combine map flat_map fst snd].
    rewrite run_bind.
    rewrite (run_marshal_param_well_kinded jvm lib env _ _ type param heap l);
      [|rewrite nth_error_app2, Nat.sub_diag by lia; reflexivity|exact Hkind].
    unfold and_then; cbn [returned heap_after library_after trace stop].
    rewrite run_bind.
    replace (done ++ type :: types) with ((done ++ [type]) ++ types)
      by (now rewrite <- app_assoc).
    replace (S (length done)) with (length (done ++ [type]))
      by (rewrite length_app; cbn; lia).
    rewrite IH. unfold and_then; cbn. now rewrite app_assoc.
Qed.

(** [executeArrayCommand] on parameters of the declared kinds makes the one
    call of [SQCloudExecArray]: the count is the number of parameters, the
    declared types pass unchanged, a VALUE_BLOB parameter goes as its
    buffer address with its capacity, and any other as the UTF conversion of
    the string with its number of UTF-16 code units. *)
Lemma executeArrayCommand_call {L : Type}
  (jvm : JVM) (lib : Library L) (env : JNIEnv)
  (thiz : SQLiteCloudBridge) (query : jstring) (params : list jobject)
  (param_types : list Z) (heap : Heap) (l : L) :
  Forall2 well_kinded param_types params ->
  calls (trace (run jvm lib (bridge env thiz
                           (executeArrayCommand query params param_types))
                  heap l))
  = [SQCloudExecArray (getConnection env thiz) (converted query)
       (map (fun tp => fst (slot env (fst tp) (snd tp)))
          (combine param_types params))
       (map (fun tp => snd (slot env (fst tp) (snd tp)))
          (combine param_types params))
       param_types (uint32_t (JNI.GetArrayLength env params))].
Proof.
  intros Hkinds.
  pose proof (run_marshal_params_well_kinded jvm lib env param_types params Hkinds [])
    as Hloop.
  cbn [app length] in Hloop.
  cbn [bridge]. rewrite run_returning. cbn [trace].
  unfold Java_io_sqlitecloud_SQLiteCloudBridge_executeArrayCommand.
  destruct query as [units|]; cbn -[marshal_params uint32_t combine];
    rewrite run_bind, Hloop; unfold and_then; cbn -[uint32_t combine];
    destruct (lib _ l) as [r l']; reflexivity.
Qed.

End WellKindedParameters.

Lemma executeArrayCommand_call_witness :
  let params := [JavaString (units_of_string "abc"); DirectByteBuffer 20480 16] in
  let types := [3; 4] in
  @Forall2 Z jobject (@well_kinded sample_header) types params /\
  calls (trace (run sample_jvm healthy_library
                  (@bridge sample_header sample_compiler 7 sample_bridge
                     (executeArrayCommand (Some (units_of_string "INSERT ?, ?"))
                        params types)) [] tt))
  = [SQCloudExecArray 4096 (Some (JNI.utf_of_units (units_of_string "INSERT ?, ?")))
       [chars_ptr (Some [97; 98; 99]); buffer_ptr 20480] [3; 16] [3; 4] 2].
Proof.
  cbv zeta.
  assert (Hkinds : @Forall2 Z jobject (@well_kinded sample_header) [3; 4]
                     [JavaString (units_of_string "abc"); DirectByteBuffer 20480 16]).
  { constructor; [right; eexists; reflexivity|].
    constructor; [left; reflexivity|constructor]. }
  split; [exact Hkinds|].
  rewrite (@executeArrayCommand_call sample_header sample_compiler unit
             sample_jvm healthy_library 7
             sample_bridge (Some (units_of_string "INSERT ?, ?"))
             [JavaString (units_of_string "abc"); DirectByteBuffer 20480 16]
             [3; 4] [] tt Hkinds).
  reflexivity.
Defined.

(** ** The loop of [executeArrayCommand] on any parameters *)

Lemma skipn_nth_error {A : Type} (xs : list A) :
  forall (i : nat) (x : A),
    nth_error xs i = Some x -> skipn i xs = x :: skipn (S i) xs.
Proof.
  induction xs as [|y ys IH]; intros [|i] x E; try discriminate E.
  - now injection E as ->.
  - cbn [skipn]. now apply IH.
Qed.

Section ParameterKindsFacts.
Context `{sqcloud_h} `{compiler}.

(** The loop stops outside the contract at the first parameter that has
    no declared type or is no string under a type other than VALUE_BLOB;
    otherwise it fills a slot for every parameter, reading the types from
    index [i] on. *)
Lemma run_marshal_params_kinds {L : Type}
  (jvm : JVM) (lib : Library L) (env : JNIEnv)
  (paramTypes : list Z) (params : list jobject) :
  forall (i : nat) (heap : Heap) (l : L),
    if kinds_match paramTypes i params then
      run jvm lib (marshal_params env paramTypes i params) heap l
      = stop (Some (map (fun tp => fst (slot env (fst tp) (snd tp)))
                      (combine (skipn i paramTypes) params),
                    map (fun tp => snd (slot env (fst tp) (snd tp)))
                      (combine (skipn i paramTypes) params)))
          (heap ++ flat_map (fun tp => slot_buffer (fst tp) (snd tp))
                     (combine (skipn i paramTypes) params)) l
    else
      returned (run jvm lib (marshal_params env paramTypes i params) heap l) = None
      /\ trace (run jvm lib (marshal_params env paramTypes i params) heap l) = [].
Proof.
  induction params as [|param rest IH]; intros i heap l.
  - cbn. destruct (skipn i paramTypes); cbn; now rewrite app_nil_r.
  - cbn [kinds_match marshal_params]. rewrite run_bind.
    destruct (nth_error paramTypes i) as [type|] eqn:Hnth.
    + destruct ((type =? VALUE_BLOB) || is_string param) eqn:Hkind;
        cbn [andb].
      * assert (Hwell : well_kinded type param).
        { apply orb_true_iff in Hkind. destruct Hkind as [E|E].
          - left. now apply Z.eqb_eq.
          - right. destruct param; try discriminate E. now eexists. }
        rewrite (run_marshal_param_well_kinded jvm lib env paramTypes i type param
                   heap l Hnth Hwell).
        unfold and_then; cbn [returned heap_after library_after trace stop].
        rewrite run_bind.
        specialize (IH (S i) (heap ++ slot_buffer type param) l).
        rewrite (skipn_nth_error paramTypes i type Hnth).
        destruct (kinds_match paramTypes (S i) rest).
        -- rewrite IH. unfold and_then; cbn. now rewrite app_assoc.
        -- destruct IH as [Hnone Htrace].
           unfold and_then. rewrite Hnone. cbn. split; [reflexivity|exact Htrace].
      * unfold marshal_param. rewrite Hnth.
        apply orb_false_iff in Hkind. destruct Hkind as [Hblob Hstring].
        rewrite Hblob. destruct param; try discriminate Hstring;
          split; reflexivity.
    + unfold marshal_param. rewrite Hnth. split; reflexivity.
Qed.

End ParameterKindsFacts.


(** ** Array commands *)

(** An ASCII character other than NUL is its own modified UTF-8 form. *)
Lemma utf_of_ascii_unit (u : Z) : 1 <= u <= 127 -> JNI.utf_of_unit u = [u].
Proof.
  intros Hu. unfold JNI.utf_of_unit.
  replace (1 <=? u) with true by (symmetry; apply Z.leb_le; lia).
  replace (u <=? 127) with true by (symmetry; apply Z.leb_le; lia).
  reflexivity.
Qed.

(** The modified UTF-8 form of a string of ASCII characters other than NUL
    has one byte for each UTF-16 code unit. *)
Lemma ascii_utf_length (env : JNIEnv) (units : list Z) :
  Forall (fun u => 1 <= u <= 127) units ->
  JNI.GetStringUTFLength env units = JNI.GetStringLength env units.
Proof.
  unfold JNI.GetStringUTFLength, JNI.GetStringLength, JNI.utf_of_units.
  induction 1 as [|u rest Hu _ IH]; [reflexivity|].
  cbn [flat_map]. rewrite (utf_of_ascii_unit u Hu), length_app.
  cbn [length]. lia.
Qed.

(** A code unit above 0x7F takes more than one byte, so the count of code
    units falls short of the length in bytes. *)
Lemma non_ascii_utf_length (env : JNIEnv) (u : Z) :
  127 < u ->
  JNI.GetStringLength env [u] < JNI.GetStringUTFLength env [u].
Proof.
  intros Hu.
  unfold JNI.GetStringUTFLength, JNI.GetStringLength, JNI.utf_of_units.
  cbn [flat_map]. unfold JNI.utf_of_unit.
  replace (u <=? 127) with false by (symmetry; apply Z.leb_gt; lia).
  rewrite andb_false_r. destruct (u <=? 2047); cbn [app length]; lia.
Qed.

(** C6, on the code: for the one parameter "e acute" (U+00E9), declared
    of a type other than VALUE_BLOB, whose UTF conversion has two bytes,
    [executeArrayCommand] passes [SQCloudExecArray] the two bytes as the
    value and 1, the number of UTF-16 code units, as its length. *)
Theorem executeArrayCommand_text_length_in_code_units `{sqcloud_h} `{compiler} {L : Type}
  (jvm : JVM) (lib : Library L) (env : JNIEnv) (thiz : SQLiteCloudBridge)
  (heap : Heap) (l : L) :
  let text := VALUE_BLOB - 1 in
  let o :=
    run jvm lib
      (bridge env thiz
         (executeArrayCommand (Some (units_of_string "SELECT ?"))
            [JavaString [233]] [text]))
      heap l in
  calls (trace o)
  = [SQCloudExecArray (getConnection env thiz)
       (Some (units_of_string "SELECT ?"))
       [chars_ptr (Some [195; 169])] [1] [text] 1] /\
  JNI.GetStringUTFLength env [233] = 2 /\
  JNI.GetStringLength env [233] = 1.
Proof.
  intros text o. subst o.
  split; [|split; reflexivity].
  unfold bridge, returning,
    Java_io_sqlitecloud_SQLiteCloudBridge_executeArrayCommand.
  cbn -[Z.sub VALUE_BLOB Z.eqb].
  unfold marshal_param. cbn -[Z.sub VALUE_BLOB Z.eqb].
  replace (text =? VALUE_BLOB) with false
    by (symmetry; apply Z.eqb_neq; subst text; lia).
  cbn -[Z.sub VALUE_BLOB].
  destruct (lib _ l) as [r l']. reflexivity.
Qed.

(** ** Pass-through and its exceptions *)







(** ** Dependence on the error state *)





(** Against a healthy and against a failing library [executeCommand] makes
    the same call, and returns the box of what each replied. *)
Example executeCommand_whatever_the_error_state :
  let message := {| address := 8192; bytes := [111; 111; 112; 115] |} in
  let query := executeCommand (Some (units_of_string "SELECT 1")) in
  let healthy :=
    run sample_jvm healthy_library
      (@bridge sample_header sample_compiler 7 sample_bridge query) [] tt in
  let failing :=
    run sample_jvm (failing_library 10002 message)
      (@bridge sample_header sample_compiler 7 sample_bridge query) [] tt in
  calls (trace healthy) = calls (trace failing) /\
  returned healthy = Some (of_jobject null) /\
  returned failing = Some (of_jobject null).
Proof. cbv zeta. repeat split. Qed.

(** ** What the bridge keeps *)

(** C3 as stated fails: [setPubSubCallback] leaves a [PubSubData] record
    on the heap when it returns. *)
Lemma setPubSubCallback_keeps_a_record :
  heap_after (run sample_jvm healthy_library
                (@bridge sample_header sample_compiler 7 sample_bridge
                   setPubSubCallback) [] tt)
  = [new_PubSubData {| PubSubData.env := 7; PubSubData.thiz := 1 |}].
Proof. reflexivity. Qed.

(** C3, amended: no exported function gives back or changes a block, and
    only [setPubSubCallback] keeps a record of its own: it adds one
    [PubSubData] holding the environment and the bridge reference, every
    other function adds none, and a function with no host string or array
    to convert, [setPubSubCallback] apart, leaves the heap as it was. *)
Theorem only_setPubSubCallback_keeps_state `{sqcloud_h} `{compiler} {L : Type}
  (jvm : JVM) (lib : Library L) (env : JNIEnv) (thiz : SQLiteCloudBridge) (i : Invocation)
  (heap : Heap) (l : L) :
  exists acquired : Heap,
    heap_after (run jvm lib (bridge env thiz i) heap l) = heap ++ acquired /\
    pubsub_records acquired = registration env thiz i /\
    (converts_arguments i = false ->
     acquired = map new_PubSubData (registration env thiz i)).
Proof.
  destruct i;
    try (exists []; cbn; answer lib; rewrite app_nil_r;
         repeat split; reflexivity).
  all: try (split_strings; cbn; answer lib; rewrite <- ?app_assoc;
            eexists; (split; [first [reflexivity | symmetry; apply app_nil_r]|]);
            (split; [reflexivity | intros E; discriminate E])).
  - (* vmErrorCode *)
    exists []. unfold bridge, Java_io_sqlitecloud_SQLiteCloudBridge_vmErrorCode.
    destruct (unwrapVM env wrappedVM =? nullptr); cbn;
      answer lib; rewrite app_nil_r; repeat split; reflexivity.
  - (* vmErrorMessage *)
    exists []. unfold bridge, Java_io_sqlitecloud_SQLiteCloudBridge_vmErrorMessage.
    destruct (unwrapVM env wrappedVM =? nullptr); cbn;
      answer lib; rewrite app_nil_r; repeat split; reflexivity.
  - (* setPubSubCallback *)
    exists [new_PubSubData {| PubSubData.env := env;
                              PubSubData.thiz := reference thiz |}].
    cbn. answer lib. repeat split; reflexivity.
  - (* getClientUUID *)
    exists []. unfold bridge, Java_io_sqlitecloud_SQLiteCloudBridge_getClientUUID.
    destruct (getConnection env thiz =? nullptr); cbn;
      answer lib; rewrite app_nil_r; repeat split; reflexivity.
  - (* executeArrayCommand *)
    destruct (run_executeArrayCommand env thiz query params param_types)
      as (slots & acquired & P & R).
    exists acquired. cbn [bridge]. rewrite run_returning, R.
    destruct slots as [[values lengths]|]; cbn;
      (split; [reflexivity|]); (split; [exact P | intros E; discriminate E]).
Qed.

Lemma only_setPubSubCallback_keeps_state_witness :
  converts_arguments setPubSubCallback = false /\
  converts_arguments (vmStep null) = false /\
  heap_after (run sample_jvm healthy_library
                (@bridge sample_header sample_compiler 7 sample_bridge
                   setPubSubCallback) [] tt)
  = [new_PubSubData {| PubSubData.env := 7; PubSubData.thiz := 1 |}] /\
  heap_after (run sample_jvm healthy_library
                (@bridge sample_header sample_compiler 7 sample_bridge
                   (vmStep null)) [] tt)
  = [].
Proof.
  split; [reflexivity|]. split; [reflexivity|].
  destruct (@only_setPubSubCallback_keeps_state sample_header sample_compiler unit
              sample_jvm healthy_library 7 sample_bridge setPubSubCallback [] tt)
    as (kept & Hkept & _ & Hall).
  destruct (@only_setPubSubCallback_keeps_state sample_header sample_compiler unit
              sample_jvm healthy_library 7 sample_bridge (vmStep null) [] tt)
    as (none & Hnone & _ & Hnothing).
  rewrite Hkept, (Hall eq_refl), Hnone, (Hnothing eq_refl).
  split; reflexivity.
Defined.

(** ** Blob calls of every function *)

Lemma fixed_blob_arguments_all `{sqcloud_h} `{compiler} {L : Type}
  (jvm : JVM) (lib : Library L)
  (env : JNIEnv) (thiz : SQLiteCloudBridge) (i : Invocation)
  (heap : Heap) (l : L) :
  Forall fixed_blob_arguments (calls (trace (run jvm lib (bridge env thiz i) heap l))).
Proof.
  destruct i;
    try solve [split_strings; cbn; answer lib; repeat constructor].
  - unfold bridge, Java_io_sqlitecloud_SQLiteCloudBridge_vmErrorCode.
    destruct (unwrapVM env wrappedVM =? nullptr); cbn;
      answer lib; repeat constructor.
  - unfold bridge, Java_io_sqlitecloud_SQLiteCloudBridge_vmErrorMessage.
    destruct (unwrapVM env wrappedVM =? nullptr); cbn;
      answer lib; repeat constructor.
  - unfold bridge, Java_io_sqlitecloud_SQLiteCloudBridge_getClientUUID.
    destruct (getConnection env thiz =? nullptr); cbn;
      answer lib; repeat constructor.
  - destruct (run_executeArrayCommand env thiz query params param_types)
      as (slots & acquired & _ & R).
    cbn [bridge]. rewrite run_returning, R.
    destruct slots as [[values lengths]|]; cbn; repeat constructor.
Qed.

(** C10: [readBlob] and [writeBlob] call the native blob read and write
    with offset 0 and the capacity of the direct buffer they are given, and
    [vmBindZeroBlob] binds a zero blob of length 0; these are the only
    native calls they make, and no exported function ever passes another
    offset to the blob read and write or another length to the zero blob. *)
Theorem blob_offset_and_length_fixed `{sqcloud_h} `{compiler} {L : Type}
  (jvm : JVM) (lib : Library L)
  (env : JNIEnv) (thiz : SQLiteCloudBridge) (handle wrappedVM : jobject)
  (buffer_address : pointer) (capacity : jlong) (row_index : jint)
  (heap : Heap) (l : L) :
  let buffer := DirectByteBuffer buffer_address capacity in
  trace (run jvm lib (bridge env thiz (readBlob handle buffer)) heap l)
    = [called (SQCloudBlobRead (unwrapBlob env handle) buffer_address capacity 0)] /\
  trace (run jvm lib (bridge env thiz (writeBlob handle buffer)) heap l)
    = [called (SQCloudBlobWrite (unwrapBlob env handle) buffer_address capacity 0)] /\
  trace (run jvm lib (bridge env thiz (vmBindZeroBlob wrappedVM row_index)) heap l)
    = [called (SQCloudVMBindZeroBlob (unwrapVM env wrappedVM) row_index 0)] /\
  forall i : Invocation,
    Forall fixed_blob_arguments
      (calls (trace (run jvm lib (bridge env thiz i) heap l))).
Proof.
  intros buffer. simpl. repeat split.
  - destruct (lib (SQCloudBlobRead _ _ _ _) l); reflexivity.
  - destruct (lib (SQCloudBlobWrite _ _ _ _) l); reflexivity.
  - destruct (lib (SQCloudVMBindZeroBlob _ _ _) l); reflexivity.
  - intros i. apply fixed_blob_arguments_all.
Qed.

(** ** Publish and subscribe *)

(** The host calling further exported functions only adds to the heap. *)
Lemma invoke_all_extends_heap `{sqcloud_h} `{compiler} {L : Type}
  (lib : Library L)
  (invocations : list (JNIEnv * SQLiteCloudBridge * Invocation)) :
  forall (heap : Heap) (l : L), exists acquired : Heap,
    fst (invoke_all lib invocations heap l) = heap ++ acquired.
Proof.
  induction invocations as [|[[env thiz] i] rest IH]; intros heap l.
  - exists []. cbn. now rewrite app_nil_r.
  - cbn [invoke_all].
    destruct (run_extends_heap (native_method env thiz) lib (bridge env thiz i)
                heap l) as [acq1 E1].
    destruct (IH (heap_after (run (native_method env thiz) lib
                                (bridge env thiz i) heap l))
                (library_after (run (native_method env thiz) lib
                                  (bridge env thiz i) heap l)))
      as [acq2 E2].
    exists (acq1 ++ acq2). rewrite E2, E1. now rewrite app_assoc.
Qed.

(** The trampoline, given a [PubSubData] block, makes one host call, on the
    reference and through the [JNIEnv] it finds there, with the boxed
    result; where the JVM does not permit that call the run ends outside
    the contract. *)
Lemma run_pubSubCallback {L : Type} (jvm : JVM) (lib : Library L) (heap : Heap)
  (data : pointer) (d : PubSubData.t) (connection result : pointer) (l : L) :
  block_at heap data = Some (new_PubSubData d) ->
  let u :=
    CallVoidMethod (PubSubData.env d) (PubSubData.thiz d) pubSubCallback_method
      (wrapPointer (PubSubData.env d) result) in
  run jvm lib (pubSubCallback connection result data) heap l
  = if permitted jvm u then
      {| returned := Some tt;
         trace := [upcalled u];
         heap_after := heap;
         library_after := l |}
    else stop None heap l.
Proof.
  intros Hd u. subst u. unfold pubSubCallback. cbn -[permitted wrapPointer].
  rewrite Hd. destruct (permitted jvm _); reflexivity.
Qed.

(** While a native method runs, a call on its receiver through its own
    [JNIEnv] is permitted. *)
Lemma permitted_in_native_method (env : JNIEnv) (thiz : SQLiteCloudBridge)
  (method : jmethodID) (argument : jobject) :
  permitted (native_method env thiz)
    (CallVoidMethod env (reference thiz) method argument) = true.
Proof. cbn. now rewrite !Z.eqb_refl. Qed.

(** Once it has returned, no call on that receiver is. *)
Lemma not_permitted_after_return (thiz : SQLiteCloudBridge) (jvm : JVM)
  (env : JNIEnv) (method : jmethodID) (argument : jobject) :
  permitted (returned_from thiz jvm)
    (CallVoidMethod env (reference thiz) method argument) = false.
Proof.
  unfold permitted, returned_from; cbn.
  destruct (current_env jvm) as [current|]; [|reflexivity].
  apply andb_false_iff. right.
  induction (live_references jvm) as [|r rest IH]; [reflexivity|].
  cbn [filter]. destruct (r =? reference thiz) eqn:E; cbn [negb existsb].
  - exact IH.
  - rewrite Z.eqb_sym, E. exact IH.
Qed.

(** C8, on the code: [setPubSubCallback] registers the trampoline
    [pubSubCallback] with a fresh [PubSubData] that holds the [JNIEnv] and
    the receiver [thiz] of that call as they are, a local reference.  While
    that call runs, a delivery calls [pubSubCallback(ByteBuffer)] on the
    receiver exactly once with the boxed result.  Once the call has
    returned and the JVM has freed its local reference, whatever exported
    functions ran in between, on whatever thread the delivery comes and
    whatever else is live there, the record is still on the heap and the
    trampoline calls through it on the freed reference: the delivery
    leaves the JNI contract, and no host method is called. *)
Theorem pubsub_reference_dies_with_the_call `{sqcloud_h} `{compiler} {L : Type}
  (jvm : JVM) (lib : Library L) (env : JNIEnv) (thiz : SQLiteCloudBridge)
  (heap : Heap) (l : L)
  (later : list (JNIEnv * SQLiteCloudBridge * Invocation))
  (conn result : pointer) (l' : L) :
  let registering := native_method env thiz in
  let registered :=
    run registering lib (bridge env thiz setPubSubCallback) heap l in
  let data := block_address (length heap) in
  let event := call_native_function address_of_pubSubCallback conn result data in
  let method :=
    {| method_name := "pubSubCallback";
       method_signature := "(Ljava/nio/ByteBuffer;)V" |} in
  let box :=
    if result =? nullptr then null else DirectByteBuffer result sizeof_pointer in
  let heap' :=
    fst (invoke_all lib later (heap_after registered) (library_after registered)) in
  (trace registered
   = [called (SQCloudSetPubSubCallback
                (JNI.GetDirectBufferAddress env (connection thiz))
                address_of_pubSubCallback data)] /\
   returned registered = Some void /\
   block_at heap' data
   = Some (new_PubSubData {| PubSubData.env := env;
                             PubSubData.thiz := reference thiz |})) /\
  run registering lib event (heap_after registered) l'
  = {| returned := Some tt;
       trace := [upcalled (CallVoidMethod env (reference thiz) method box)];
       heap_after := heap_after registered;
       library_after := l' |} /\
  run (returned_from thiz jvm) lib event heap' l' = stop None heap' l'.
Proof.
  intros registering registered data event method box heap'.
  pose (record := {| PubSubData.env := env; PubSubData.thiz := reference thiz |}).
  assert (Hreg : trace registered
                 = [called (SQCloudSetPubSubCallback
                              (JNI.GetDirectBufferAddress env (connection thiz))
                              address_of_pubSubCallback data)]
                 /\ returned registered = Some void
                 /\ heap_after registered = heap ++ [new_PubSubData record]).
  { subst registered registering data record. cbn.
    destruct (lib (SQCloudSetPubSubCallback _ _ _) l) as [u l1].
    repeat split. }
  destruct Hreg as (Htrace & Hreturned & Hheap).
  assert (Hrecord : block_at (heap ++ [new_PubSubData record]) data
                    = Some (new_PubSubData record)).
  { replace (heap ++ [new_PubSubData record])
      with ((heap ++ [new_PubSubData record]) ++ []) by apply app_nil_r.
    subst data. apply block_at_extended.
    rewrite nth_error_app2 by lia. now rewrite Nat.sub_diag. }
  assert (Hkept : block_at heap' data = Some (new_PubSubData record)).
  { destruct (invoke_all_extends_heap lib later (heap_after registered)
                (library_after registered)) as [extra Hextra].
    fold heap' in Hextra. rewrite Hextra, Hheap. subst data.
    apply block_at_extended.
    rewrite nth_error_app2 by lia. now rewrite Nat.sub_diag. }
  split; [split; [exact Htrace | split; [exact Hreturned | exact Hkept]]|].
  subst event. cbn [call_native_function]. split.
  - rewrite Hheap.
    rewrite (run_pubSubCallback registering lib _ data record conn result l' Hrecord).
    subst registering record. cbn [PubSubData.env PubSubData.thiz].
    rewrite permitted_in_native_method. reflexivity.
  - rewrite (run_pubSubCallback (returned_from thiz jvm) lib heap' data record
               conn result l' Hkept).
    subst record. cbn [PubSubData.env PubSubData.thiz].
    rewrite not_permitted_after_return. reflexivity.
Qed.

(** A delivery on a thread of the native library, after the registering
    call has returned: nothing reaches the host. *)
Example delivery_on_library_thread :
  let registered :=
    run sample_jvm healthy_library
      (@bridge sample_header sample_compiler 7 sample_bridge setPubSubCallback)
      [] tt in
  run (returned_from sample_bridge library_thread) healthy_library
    (call_native_function address_of_pubSubCallback 4096 12288 1)
    (heap_after registered) tt
  = stop None [new_PubSubData {| PubSubData.env := 7; PubSubData.thiz := 1 |}] tt.
Proof. reflexivity. Qed.

(** ** Handles and connections *)

(** A function given a boxed result, blob or VM makes its calls on the
    pointer in the box and on no connection, and makes none only under the
    null guard of [vmErrorCode] and [vmErrorMessage]. *)
Lemma calls_on_given_handle `{sqcloud_h} `{compiler} {L : Type}
  (jvm : JVM) (lib : Library L)
  (env : JNIEnv) (thiz : SQLiteCloudBridge) (i : Invocation) (h : jobject)
  (heap : Heap) (l : L) :
  given_handle i = Some h ->
  Forall (fun c => handle_of c = Some (unwrapPointer env h)
                   /\ connection_of c = None)
    (calls (trace (run jvm lib (bridge env thiz i) heap l))) /\
  (calls (trace (run jvm lib (bridge env thiz i) heap l)) = [] ->
   null_guarded env thiz i = true).
Proof.
  intros Hh.
  destruct i; try discriminate Hh; cbn in Hh; injection Hh as ->;
    try solve [ split_strings; cbn; answer lib;
                (split; [repeat constructor | intros E; discriminate E]) ].
  - (* vmErrorCode *)
    unfold bridge, null_guarded,
      Java_io_sqlitecloud_SQLiteCloudBridge_vmErrorCode.
    destruct (unwrapVM env h =? nullptr); cbn; answer lib;
      split; try (repeat constructor); try reflexivity;
      intros E; discriminate E.
  - (* vmErrorMessage *)
    unfold bridge, null_guarded,
      Java_io_sqlitecloud_SQLiteCloudBridge_vmErrorMessage.
    destruct (unwrapVM env h =? nullptr); cbn; answer lib;
      split; try (repeat constructor); try reflexivity;
      intros E; discriminate E.
Qed.

(** X2: a pointer the bridge boxed comes back to the library unchanged.
    Every exported function that is given the box of a pointer [p] as its
    result, blob or VM handle makes all its native calls on [p] itself, the
    null pointer included, and on no connection. *)
Theorem boxed_handle_reaches_the_library `{sqcloud_h} `{compiler} {L : Type}
  (jvm : JVM) (lib : Library L) (env : JNIEnv) (thiz : SQLiteCloudBridge) (i : Invocation)
  (p : pointer) (heap : Heap) (l : L) :
  given_handle i = Some (wrapPointer env p) ->
  Forall (fun c => handle_of c = Some p /\ connection_of c = None)
    (calls (trace (run jvm lib (bridge env thiz i) heap l))).
Proof.
  intros Hh.
  destruct (calls_on_given_handle jvm lib env thiz i (wrapPointer env p) heap l Hh)
    as [Hcalls _].
  now rewrite unwrapPointer_wrapPointer in Hcalls.
Qed.

Lemma boxed_handle_reaches_the_library_witness :
  given_handle (rowsetResultLongValue (wrapPointer 7 12288) 2 3)
  = Some (wrapPointer 7 12288) /\
  Forall (fun c => handle_of c = Some 12288 /\ connection_of c = None)
    (calls (trace (run sample_jvm healthy_library
                     (@bridge sample_header sample_compiler 7 sample_bridge
                        (rowsetResultLongValue (wrapPointer 7 12288) 2 3))
                     [] tt))).
Proof.
  split; [reflexivity|].
  apply (@boxed_handle_reaches_the_library sample_header sample_compiler unit
             sample_jvm healthy_library
           7 sample_bridge (rowsetResultLongValue (wrapPointer 7 12288) 2 3)
           12288 [] tt).
  reflexivity.
Defined.

(** X3: only the null guards of [vmErrorCode] and [vmErrorMessage] keep a
    handle from the library.  Every other exported function given a handle
    that unwraps to the null pointer still makes its native call, on the
    null pointer. *)
Theorem null_handle_is_forwarded `{sqcloud_h} `{compiler} {L : Type}
  (jvm : JVM) (lib : Library L)
  (env : JNIEnv) (thiz : SQLiteCloudBridge) (i : Invocation) (h : jobject)
  (heap : Heap) (l : L) :
  given_handle i = Some h ->
  unwrapPointer env h = nullptr ->
  null_guarded env thiz i = false ->
  calls (trace (run jvm lib (bridge env thiz i) heap l)) <> [] /\
  Forall (fun c => handle_of c = Some nullptr)
    (calls (trace (run jvm lib (bridge env thiz i) heap l))).
Proof.
  intros Hh Hnull Hguard.
  destruct (calls_on_given_handle jvm lib env thiz i h heap l Hh) as [Hcalls Hnone].
  split.
  - intros E. apply Hnone in E. congruence.
  - rewrite Hnull in Hcalls.
    eapply Forall_impl; [|exact Hcalls]. intros c [Hc _]. exact Hc.
Qed.

Lemma null_handle_is_forwarded_witness :
  (given_handle (vmStep null) = Some null /\
   unwrapPointer 7 null = nullptr /\
   null_guarded 7 sample_bridge (vmStep null) = false) /\
  calls (trace (run sample_jvm healthy_library
                  (@bridge sample_header sample_compiler 7 sample_bridge
                     (vmStep null)) [] tt))
  <> [] /\
  Forall (fun c => handle_of c = Some nullptr)
    (calls (trace (run sample_jvm healthy_library
                     (@bridge sample_header sample_compiler 7 sample_bridge (vmStep null))
                     [] tt))).
Proof.
  split; [repeat split|].
  apply (@null_handle_is_forwarded sample_header sample_compiler unit
             sample_jvm healthy_library 7
           sample_bridge (vmStep null) null [] tt); reflexivity.
Defined.

(** X4: every native call an exported function makes on a connection is
    made on the connection stored in the bridge object it was called on;
    functions that work on a result, a blob or a VM, and [doConnect], make
    no call on any connection. *)
Theorem calls_stay_on_the_stored_connection `{sqcloud_h} `{compiler} {L : Type}
  (jvm : JVM) (lib : Library L) (env : JNIEnv) (thiz : SQLiteCloudBridge) (i : Invocation)
  (heap : Heap) (l : L) :
  Forall (fun c => connection_of c
                   = if uses_connection i then Some (getConnection env thiz)
                     else None)
    (calls (trace (run jvm lib (bridge env thiz i) heap l))).
Proof.
  destruct i;
    try solve [split_strings; cbn; answer lib; repeat constructor].
  - unfold bridge, Java_io_sqlitecloud_SQLiteCloudBridge_vmErrorCode.
    destruct (unwrapVM env wrappedVM =? nullptr); cbn;
      answer lib; repeat constructor.
  - unfold bridge, Java_io_sqlitecloud_SQLiteCloudBridge_vmErrorMessage.
    destruct (unwrapVM env wrappedVM =? nullptr); cbn;
      answer lib; repeat constructor.
  - unfold bridge, Java_io_sqlitecloud_SQLiteCloudBridge_getClientUUID.
    destruct (getConnection env thiz =? nullptr); cbn;
      answer lib; repeat constructor.
  - destruct (run_executeArrayCommand env thiz query params param_types)
      as (slots & acquired & _ & R).
    cbn [bridge]. rewrite run_returning, R.
    destruct slots as [[values lengths]|]; cbn; repeat constructor.
Qed.

(** ** Boxed replies *)

(** X5: the functions that return a native pointer ([doConnect],
    [setPubSubOnly], [executeCommand], [executeArrayCommand], [openBlob],
    [vmCompile], [vmResult]) make one native call and return the box of the
    pointer it replied, unless the run left the JNI contract; the result is
    the null reference if and only if the library replied the null
    pointer. *)
Theorem boxed_reply_is_null_iff_reply_is `{sqcloud_h} `{compiler} {L : Type}
  (jvm : JVM) (lib : Library L) (env : JNIEnv) (thiz : SQLiteCloudBridge) (i : Invocation)
  (heap : Heap) (l : L) :
  boxes_reply i = true ->
  let o := run jvm lib (bridge env thiz i) heap l in
  returned o <> None ->
  exists (c : SQCloud) (p : pointer),
    trace o = [called c] /\
    pointer_reply c (fst (lib c l)) = Some p /\
    returned o = Some (of_jobject (wrapPointer env p)) /\
    (returned o = Some (of_jobject null) <-> p = nullptr).
Proof.
  intros Hbox o Hdefined. subst o.
  assert (Hiff : forall p : pointer,
             Some (of_jobject (wrapPointer env p)) = Some (of_jobject null)
             <-> p = nullptr).
  { intros p. rewrite <- (wrapPointer_null_iff env p).
    split; [intros E; injection E as E; exact E | intros E; now rewrite E]. }
  destruct i; try discriminate Hbox.
  - (* doConnect *)
    destruct (run_doConnect jvm lib env thiz hostname port username password
                database timeout family compression sqlite_mode zero_text
                password_hashed nonlinearizable db_memory no_blob db_create
                max_data max_rows max_rowset tls_root_certificate
                tls_certificate tls_certificate_key insecure heap l)
      as (Hret & Htrace & _).
    cbn [bridge] in *. rewrite run_returning in *. cbn [returned trace] in *.
    rewrite Hret, Htrace. cbn [option_map].
    eexists; eexists. split; [reflexivity|]. split; [reflexivity|].
    split; [reflexivity|apply Hiff].
  - (* setPubSubOnly *)
    cbn. destruct (lib (SQCloudSetPubSubOnly _) l) as [r st1] eqn:E; cbn.
    exists (SQCloudSetPubSubOnly (getConnection env thiz)), r.
    rewrite E. split; [reflexivity|]. split; [reflexivity|].
    split; [reflexivity|apply Hiff].
  - (* executeCommand *)
    destruct query as [units|]; cbn;
      match goal with |- context [lib ?c l] =>
        destruct (lib c l) as [r st1] eqn:E; cbn; exists c, r; rewrite E end;
      (split; [reflexivity|]); (split; [reflexivity|]);
      (split; [reflexivity|apply Hiff]).
  - (* executeArrayCommand *)
    destruct (run_executeArrayCommand env thiz query params param_types)
      as (slots & acquired & _ & R).
    cbn [bridge] in *. rewrite run_returning, R in *.
    destruct slots as [[values lengths]|]; cbn in Hdefined |- *;
      [|contradiction].
    eexists; eexists. split; [reflexivity|]. split; [reflexivity|].
    split; [reflexivity|apply Hiff].
  - (* openBlob *)
    split_strings; cbn;
      match goal with |- context [lib ?c l] =>
        destruct (lib c l) as [r st1] eqn:E; cbn; exists c, r; rewrite E end;
      (split; [reflexivity|]); (split; [reflexivity|]);
      (split; [reflexivity|apply Hiff]).
  - (* vmCompile *)
    destruct query as [units|]; cbn;
      match goal with |- context [lib ?c l] =>
        destruct (lib c l) as [r st1] eqn:E; cbn; exists c, r; rewrite E end;
      (split; [reflexivity|]); (split; [reflexivity|]);
      (split; [reflexivity|apply Hiff]).
  - (* vmResult *)
    cbn. destruct (lib (SQCloudVMResult _) l) as [r st1] eqn:E; cbn.
    exists (SQCloudVMResult (unwrapVM env wrappedVM)), r.
    rewrite E. split; [reflexivity|]. split; [reflexivity|].
    split; [reflexivity|apply Hiff].
Qed.

Lemma boxed_reply_is_null_iff_reply_is_witness :
  let query := vmCompile (Some (units_of_string "SELECT 1")) in
  let o :=
    run sample_jvm healthy_library
      (@bridge sample_header sample_compiler 7 sample_bridge query) [] tt in
  (boxes_reply query = true /\ returned o <> None) /\
  exists (c : SQCloud) (p : pointer),
    trace o = [called c] /\
    pointer_reply c (fst (healthy_library c tt)) = Some p /\
    returned o = Some (of_jobject (wrapPointer 7 p)) /\
    (returned o = Some (of_jobject null) <-> p = nullptr).
Proof.
  cbv zeta. split; [split; [reflexivity|discriminate]|].
  apply (@boxed_reply_is_null_iff_reply_is sample_header sample_compiler unit
             sample_jvm healthy_library
           7 sample_bridge (vmCompile (Some (units_of_string "SELECT 1")))
           [] tt eq_refl).
  discriminate.
Defined.

(** ** Buffers that stay acquired *)

(** One call other than [executeArrayCommand] leaves on the heap one
    buffer for each of its string arguments that is not null, in the order
    it converts them, and the record it registers. *)
Lemma heap_after_call `{sqcloud_h} `{compiler} {L : Type}
  (jvm : JVM) (lib : Library L) (env : JNIEnv) (thiz : SQLiteCloudBridge) (i : Invocation)
  (heap : Heap) (l : L) :
  array_command i = false ->
  heap_after (run jvm lib (bridge env thiz i) heap l)
  = heap ++ left_behind (env, thiz, i).
Proof.
  intros Harray. unfold left_behind. cbn [fst snd].
  destruct i; try discriminate Harray;
    try solve [ split_strings; cbn; answer lib;
                rewrite <- ?app_assoc, ?app_nil_r; reflexivity ].
  - unfold bridge, Java_io_sqlitecloud_SQLiteCloudBridge_vmErrorCode.
    destruct (unwrapVM env wrappedVM =? nullptr); cbn; answer lib;
      now rewrite app_nil_r.
  - unfold bridge, Java_io_sqlitecloud_SQLiteCloudBridge_vmErrorMessage.
    destruct (unwrapVM env wrappedVM =? nullptr); cbn; answer lib;
      now rewrite app_nil_r.
  - unfold bridge, Java_io_sqlitecloud_SQLiteCloudBridge_getClientUUID.
    destruct (getConnection env thiz =? nullptr); cbn; answer lib;
      now rewrite app_nil_r.
Qed.

(** In whatever order the compiler has the arguments of a call converted,
    they are the same strings. *)
Lemma conversions_permutation `{compiler} (i : Invocation) :
  Permutation (conversions i) (string_arguments i).
Proof.
  destruct i; try apply Permutation_refl; cbn.
  - destruct SQCloudUploadDatabase_arguments; cbn;
      [apply Permutation_refl | apply perm_swap].
  - destruct SQCloudBlobOpen_arguments; cbn.
    + apply Permutation_refl.
    + apply perm_skip, perm_swap.
    + apply perm_swap.
    + eapply perm_trans; [apply perm_skip, perm_swap | apply perm_swap].
    + eapply perm_trans; [apply perm_swap | apply perm_skip, perm_swap].
    + symmetry. apply (Permutation_rev [schema; table; column]).
Qed.

(** X6: a buffer acquired for a host string is never released.  Over any
    sequence of calls of exported functions other than [executeArrayCommand],
    the heap ends as what was there before followed, call by call, by one
    [GetStringUTFChars] buffer for each string argument that is not null, in
    the order the build converts them, and by the record of each
    [setPubSubCallback]; a call with no string argument adds nothing.  The
    strings converted are the string arguments of the call, each once, in
    whatever order the compiler evaluates the arguments of one call. *)
Theorem converted_strings_stay_acquired `{sqcloud_h} `{compiler} {L : Type}
  (lib : Library L)
  (invocations : list (JNIEnv * SQLiteCloudBridge * Invocation)) :
  Forall (fun call => array_command (snd call) = false) invocations ->
  forall (heap : Heap) (l : L),
    fst (invoke_all lib invocations heap l)
    = heap ++ flat_map left_behind invocations /\
    Forall (fun call =>
              Permutation (conversions (snd call)) (string_arguments (snd call)))
      invocations.
Proof.
  intros Hcalls heap l. split.
  - revert heap l.
    induction Hcalls as [|[[env thiz] i] rest Hcall _ IH]; intros heap l.
    + cbn. now rewrite app_nil_r.
    + cbn [invoke_all flat_map]. cbn [snd] in Hcall.
      rewrite IH,
        (heap_after_call (native_method env thiz) lib env thiz i heap l Hcall).
      now rewrite <- app_assoc.
  - apply Forall_forall. intros call _. apply conversions_permutation.
Qed.

Lemma converted_strings_stay_acquired_witness :
  let session :=
    [(7, sample_bridge,
      openBlob (Some (units_of_string "main")) None
        (Some (units_of_string "c")) 1 0);
     (7, sample_bridge, vmStep null);
     (7, sample_bridge, executeCommand (Some (units_of_string "q")))] in
  Forall (fun call => array_command (snd call) = false) session /\
  fst (invoke_all (H := sample_header) (H0 := sample_compiler) healthy_library
         session [calloc 1 4] tt)
  = [calloc 1 4; StringUTFChars [99]; StringUTFChars [109; 97; 105; 110];
     StringUTFChars [113]].
Proof.
  cbv zeta.
  assert (Hsession :
    Forall (fun call : JNIEnv * SQLiteCloudBridge * Invocation =>
              array_command (snd call) = false)
      [(7, sample_bridge,
        openBlob (Some (units_of_string "main")) None
          (Some (units_of_string "c")) 1 0);
       (7, sample_bridge, vmStep null);
       (7, sample_bridge, executeCommand (Some (units_of_string "q")))]).
  { repeat constructor. }
  split; [exact Hsession|].
  rewrite (proj1 (@converted_strings_stay_acquired sample_header sample_compiler
                    unit healthy_library _ Hsession [calloc 1 4] tt)).
  reflexivity.
Defined.

(** ** When [executeArrayCommand] stays within the JNI contract *)


(** X8: what one call of [executeArrayCommand] leaves acquired.  When its
    parameters are of the declared kinds, the function makes the one call
    of [SQCloudExecArray] and returns with everything it acquired still on
    the heap: the query's buffer, the two arrays from [calloc], two copies
    of the declared types, and one buffer for each parameter that is not a
    blob. *)
Theorem executeArrayCommand_acquires `{sqcloud_h} `{compiler} {L : Type}
  (jvm : JVM) (lib : Library L)
  (env : JNIEnv) (thiz : SQLiteCloudBridge) (query : jstring)
  (params : list jobject) (param_types : list Z) (heap : Heap) (l : L) :
  kinds_match param_types 0 params = true ->
  let n := uint32_t (JNI.GetArrayLength env params) in
  let slots :=
    map (fun tp => slot env (fst tp) (snd tp)) (combine param_types params) in
  let c :=
    SQCloudExecArray (getConnection env thiz) (converted query)
      (map fst slots) (map snd slots) param_types n in
  run jvm lib (bridge env thiz (executeArrayCommand query params param_types))
    heap l
  = {| returned := Some (of_jobject (wrapPointer env (fst (lib c l))));
       trace := [called c];
       heap_after :=
         heap ++ conversion_buffer query
              ++ [calloc n sizeof_pointer; calloc n 4;
                  IntArrayElements param_types]
              ++ flat_map (fun tp => slot_buffer (fst tp) (snd tp))
                   (combine param_types params)
              ++ [IntArrayElements param_types];
       library_after := snd (lib c l) |}.
Proof.
  intros Hkinds n slots c. subst n slots c.
  cbn [bridge]. rewrite run_returning.
  unfold Java_io_sqlitecloud_SQLiteCloudBridge_executeArrayCommand.
  rewrite !map_map.
  destruct query as [units|];
    cbn -[marshal_params uint32_t combine kinds_match];
    rewrite run_bind;
    match goal with
    | |- context [run jvm lib (marshal_params env ?ts 0 params) ?h l] =>
        pose proof (run_marshal_params_kinds jvm lib env ts params 0 h l) as K
    end;
    rewrite Hkinds in K; rewrite K; unfold and_then;
    cbn -[uint32_t combine];
    destruct (lib _ l) as [r st1]; cbn -[uint32_t combine];
    rewrite <- ?app_assoc; reflexivity.
Qed.

Lemma executeArrayCommand_acquires_witness :
  let params := [JavaString (units_of_string "abc"); DirectByteBuffer 20480 16] in
  kinds_match (H := sample_header) [3; 4; 5] 0 params = true /\
  heap_after (run sample_jvm healthy_library
                (@bridge sample_header sample_compiler 7 sample_bridge
                   (executeArrayCommand None params [3; 4; 5])) [] tt)
  = [calloc 2 sizeof_pointer; calloc 2 4; IntArrayElements [3; 4; 5];
     StringUTFChars [97; 98; 99]; IntArrayElements [3; 4; 5]].
Proof.
  cbv zeta. split; [reflexivity|].
  rewrite (@executeArrayCommand_acquires sample_header sample_compiler unit
             sample_jvm healthy_library 7
             sample_bridge None
             [JavaString (units_of_string "abc"); DirectByteBuffer 20480 16]
             [3; 4; 5] [] tt eq_refl).
  reflexivity.
Defined.

(** ** Records over many calls *)

Lemma pubsub_records_conversion_buffer (str : jstring) :
  pubsub_records (conversion_buffer str) = [].
Proof. destruct str; reflexivity. Qed.

(** One call adds the record it registers, and no other. *)
Lemma bridge_records `{sqcloud_h} `{compiler} {L : Type}
  (jvm : JVM) (lib : Library L) (env : JNIEnv)
  (thiz : SQLiteCloudBridge) (i : Invocation) (heap : Heap) (l : L) :
  pubsub_records (heap_after (run jvm lib (bridge env thiz i) heap l))
  = pubsub_records heap ++ registration env thiz i.
Proof.
  destruct i;
    try solve [ split_strings; cbn; answer lib;
                rewrite ?pubsub_records_app; cbn;
                rewrite ?app_nil_r; reflexivity ].
  - unfold bridge, Java_io_sqlitecloud_SQLiteCloudBridge_vmErrorCode.
    destruct (unwrapVM env wrappedVM =? nullptr); cbn; answer lib;
      now rewrite app_nil_r.
  - unfold bridge, Java_io_sqlitecloud_SQLiteCloudBridge_vmErrorMessage.
    destruct (unwrapVM env wrappedVM =? nullptr); cbn; answer lib;
      now rewrite app_nil_r.
  - unfold bridge, Java_io_sqlitecloud_SQLiteCloudBridge_getClientUUID.
    destruct (getConnection env thiz =? nullptr); cbn; answer lib;
      now rewrite app_nil_r.
  - destruct (run_executeArrayCommand env thiz query params param_types)
      as (slots & acquired & P & R).
    cbn [bridge registration]. rewrite run_returning, R.
    destruct slots as [[values lengths]|]; cbn;
      now rewrite pubsub_records_app, P.
Qed.

(** X9: over any sequence of calls of exported functions, by any bridge
    objects and against any library, the [PubSubData] records on the heap
    are those that were there before followed by one for each call of
    [setPubSubCallback], in order: registering again adds a record and
    leaves the earlier ones, and nothing ever removes one. *)
Theorem records_after_any_calls `{sqcloud_h} `{compiler} {L : Type}
  (lib : Library L)
  (invocations : list (JNIEnv * SQLiteCloudBridge * Invocation)) :
  forall (heap : Heap) (l : L),
    pubsub_records (fst (invoke_all lib invocations heap l))
    = pubsub_records heap ++ registrations invocations.
Proof.
  induction invocations as [|[[env thiz] i] rest IH]; intros heap l.
  - cbn. now rewrite app_nil_r.
  - cbn [invoke_all]. rewrite IH, bridge_records.
    unfold registrations. cbn [flat_map fst snd].
    now rewrite <- app_assoc.
Qed.

(** ** What the bridge fixes when compiling, and what it never calls *)

(** X10: [vmCompile] compiles on the stored connection with the length -1
    and no tail pointer, so the library measures the query itself and the
    rest of a query of several statements is never handed back; no exported
    function passes another length or a tail pointer to
    [SQCloudVMCompile]. *)
Theorem compile_length_and_tail_fixed `{sqcloud_h} `{compiler} {L : Type}
  (jvm : JVM) (lib : Library L) (env : JNIEnv) (thiz : SQLiteCloudBridge)
  (query : jstring)
  (heap : Heap) (l : L) :
  trace (run jvm lib (bridge env thiz (vmCompile query)) heap l)
  = [called (SQCloudVMCompile (getConnection env thiz) (converted query)
               (-1) nullptr)] /\
  forall i : Invocation,
    Forall fixed_compile_arguments
      (calls (trace (run jvm lib (bridge env thiz i) heap l))).
Proof.
  split.
  - destruct query as [units|]; cbn;
      match goal with |- context [lib ?c l] => destruct (lib c l) end;
      reflexivity.
  - intros i.
    destruct i;
      try solve [split_strings; cbn; answer lib; repeat constructor].
    + unfold bridge, Java_io_sqlitecloud_SQLiteCloudBridge_vmErrorCode.
      destruct (unwrapVM env wrappedVM =? nullptr); cbn;
        answer lib; repeat constructor.
    + unfold bridge, Java_io_sqlitecloud_SQLiteCloudBridge_vmErrorMessage.
      destruct (unwrapVM env wrappedVM =? nullptr); cbn;
        answer lib; repeat constructor.
    + unfold bridge, Java_io_sqlitecloud_SQLiteCloudBridge_getClientUUID.
      destruct (getConnection env thiz =? nullptr); cbn;
        answer lib; repeat constructor.
    + destruct (run_executeArrayCommand env thiz query0 params param_types)
        as (slots & acquired & _ & R).
      cbn [bridge]. rewrite run_returning, R.
      destruct slots as [[values lengths]|]; cbn; repeat constructor.
Qed.

(** X11: no exported function calls back into the host, and none makes
    more than two native calls: the trace of a run holds native calls only,
    two at most.  Only the trampoline [pubSubCallback] calls a host
    method. *)
Theorem exported_functions_never_call_back `{sqcloud_h} `{compiler} {L : Type}
  (jvm : JVM) (lib : Library L) (env : JNIEnv) (thiz : SQLiteCloudBridge) (i : Invocation)
  (heap : Heap) (l : L) :
  trace (run jvm lib (bridge env thiz i) heap l)
  = map called (calls (trace (run jvm lib (bridge env thiz i) heap l))) /\
  (length (trace (run jvm lib (bridge env thiz i) heap l)) <= 2)%nat.
Proof.
  destruct i;
    try solve [ split_strings; cbn; answer lib;
                (split; [reflexivity | cbn; lia]) ].
  - unfold bridge, Java_io_sqlitecloud_SQLiteCloudBridge_vmErrorCode.
    destruct (unwrapVM env wrappedVM =? nullptr); cbn; answer lib;
      (split; [reflexivity | cbn; lia]).
  - unfold bridge, Java_io_sqlitecloud_SQLiteCloudBridge_vmErrorMessage.
    destruct (unwrapVM env wrappedVM =? nullptr); cbn; answer lib;
      (split; [reflexivity | cbn; lia]).
  - unfold bridge, Java_io_sqlitecloud_SQLiteCloudBridge_getClientUUID.
    destruct (getConnection env thiz =? nullptr); cbn; answer lib;
      (split; [reflexivity | cbn; lia]).
  - destruct (run_executeArrayCommand env thiz query params param_types)
      as (slots & acquired & _ & R).
    cbn [bridge]. rewrite run_returning, R.
    destruct slots as [[values lengths]|]; cbn;
      (split; [reflexivity | lia]).
Qed.

(** ** Arguments the bridge passes on *)

(** X12: only [getClientUUID] guards a bridge that holds no connection.
    Every other exported function that works on the stored connection,
    called on a bridge object whose connection pointer is null, still makes
    its native calls, on the null connection, unless the run left the JNI
    contract. *)
Theorem null_connection_is_forwarded `{sqcloud_h} `{compiler} {L : Type}
  (jvm : JVM) (lib : Library L)
  (env : JNIEnv) (thiz : SQLiteCloudBridge) (i : Invocation)
  (heap : Heap) (l : L) :
  uses_connection i = true ->
  getConnection env thiz = nullptr ->
  null_guarded env thiz i = false ->
  returned (run jvm lib (bridge env thiz i) heap l) <> None ->
  calls (trace (run jvm lib (bridge env thiz i) heap l)) <> [] /\
  Forall (fun c => connection_of c = Some nullptr)
    (calls (trace (run jvm lib (bridge env thiz i) heap l))).
Proof.
  intros Huses Hnull Hguard Hdefined.
  destruct i; try discriminate Huses;
    try solve [ split_strings; cbn; rewrite ?Hnull; answer lib;
                (split; [intros E; discriminate E | repeat constructor]) ].
  - (* getClientUUID *)
    unfold null_guarded in Hguard. rewrite Hnull in Hguard. discriminate Hguard.
  - (* executeArrayCommand *)
    destruct (run_executeArrayCommand env thiz query params param_types)
      as (slots & acquired & _ & R).
    cbn [bridge] in *. rewrite run_returning, R in *.
    destruct slots as [[values lengths]|]; cbn in Hdefined |- *;
      [|contradiction].
    rewrite Hnull. split; [intros E; discriminate E | repeat constructor].
Qed.

Lemma null_connection_is_forwarded_witness :
  let query := executeCommand (Some (units_of_string "SELECT 1")) in
  let o :=
    run (native_method 7 unconnected_bridge) healthy_library
      (@bridge sample_header sample_compiler 7 unconnected_bridge query) [] tt in
  (uses_connection query = true /\
   getConnection 7 unconnected_bridge = nullptr /\
   null_guarded 7 unconnected_bridge query = false /\
   returned o <> None) /\
  calls (trace o) <> [] /\
  Forall (fun c => connection_of c = Some nullptr) (calls (trace o)).
Proof.
  cbv zeta. split; [repeat split; discriminate|].
  apply (@null_connection_is_forwarded sample_header sample_compiler unit
           (native_method 7 unconnected_bridge) healthy_library 7
           unconnected_bridge
           (executeCommand (Some (units_of_string "SELECT 1"))) [] tt);
    try reflexivity.
  discriminate.
Defined.

(** X13: every host string reaches the library as its conversion and none
    is checked.  In each native call an exported function makes, the C
    strings are the conversions of the function's string arguments: the
    modified UTF-8 bytes of a string, the null pointer for the null
    reference. *)
Theorem strings_are_passed_converted `{sqcloud_h} `{compiler} {L : Type}
  (jvm : JVM) (lib : Library L)
  (env : JNIEnv) (thiz : SQLiteCloudBridge) (i : Invocation)
  (heap : Heap) (l : L) :
  Forall (fun c => strings_of c = map converted (string_arguments i))
    (calls (trace (run jvm lib (bridge env thiz i) heap l))).
Proof.
  destruct i;
    try solve [split_strings; cbn; answer lib; repeat constructor].
  - unfold bridge, Java_io_sqlitecloud_SQLiteCloudBridge_vmErrorCode.
    destruct (unwrapVM env wrappedVM =? nullptr); cbn;
      answer lib; repeat constructor.
  - unfold bridge, Java_io_sqlitecloud_SQLiteCloudBridge_vmErrorMessage.
    destruct (unwrapVM env wrappedVM =? nullptr); cbn;
      answer lib; repeat constructor.
  - unfold bridge, Java_io_sqlitecloud_SQLiteCloudBridge_getClientUUID.
    destruct (getConnection env thiz =? nullptr); cbn;
      answer lib; repeat constructor.
  - destruct (run_executeArrayCommand env thiz query params param_types)
      as (slots & acquired & _ & R).
    cbn [bridge]. rewrite run_returning, R.
    destruct slots as [[values lengths]|]; cbn; repeat constructor.
Qed.

(** X14: the bridge passes positions on as it gets them.  In each native
    call an exported function makes, the row, column and parameter indexes
    and the row identifiers are the function's own arguments, unchanged and
    in the same order. *)
Theorem positions_are_passed_unchanged `{sqcloud_h} `{compiler} {L : Type}
  (jvm : JVM) (lib : Library L) (env : JNIEnv) (thiz : SQLiteCloudBridge) (i : Invocation)
  (heap : Heap) (l : L) :
  Forall (fun c => positions_of c = position_arguments i)
    (calls (trace (run jvm lib (bridge env thiz i) heap l))).
Proof.
  destruct i;
    try solve [split_strings; cbn; answer lib; repeat constructor].
  - unfold bridge, Java_io_sqlitecloud_SQLiteCloudBridge_vmErrorCode.
    destruct (unwrapVM env wrappedVM =? nullptr); cbn;
      answer lib; repeat constructor.
  - unfold bridge, Java_io_sqlitecloud_SQLiteCloudBridge_vmErrorMessage.
    destruct (unwrapVM env wrappedVM =? nullptr); cbn;
      answer lib; repeat constructor.
  - unfold bridge, Java_io_sqlitecloud_SQLiteCloudBridge_getClientUUID.
    destruct (getConnection env thiz =? nullptr); cbn;
      answer lib; repeat constructor.
  - destruct (run_executeArrayCommand env thiz query params param_types)
      as (slots & acquired & _ & R).
    cbn [bridge]. rewrite run_returning, R.
    destruct slots as [[values lengths]|]; cbn; repeat constructor.
Qed.

(** ** [isError] and the accessors *)

(** X15: [isError] and the accessors of the error agree.  Asked in the same
    state of the library, [isError] returns 1 or 0, and it returns 0 exactly
    when [errorCode], [extendedErrorCode] and [errorOffset] return the null
    reference; when it returns 0, [errorMessage] returns the null reference
    too. *)
Theorem isError_agrees_with_accessors `{sqcloud_h} `{compiler} {L : Type}
  (jvm : JVM) (lib : Library L) (env : JNIEnv) (thiz : SQLiteCloudBridge)
  (heap : Heap) (l : L) :
  let reported := returned (run jvm lib (bridge env thiz isError) heap l) in
  let answer_of (i : Invocation) :=
    returned (run jvm lib (bridge env thiz i) heap l) in
  (reported = Some (of_jboolean 1) \/ reported = Some (of_jboolean 0)) /\
  (reported = Some (of_jboolean 0)
   <-> answer_of errorCode = Some (of_jobject null)) /\
  (reported = Some (of_jboolean 0)
   <-> answer_of extendedErrorCode = Some (of_jobject null)) /\
  (reported = Some (of_jboolean 0)
   <-> answer_of errorOffset = Some (of_jobject null)) /\
  (reported = Some (of_jboolean 0)
   -> answer_of errorMessage = Some (of_jstring None)).
Proof.
  intros reported answer_of. subst reported answer_of. cbn.
  destruct (lib (SQCloudIsError _) l) as [[|] l1]; cbn.
  - split; [left; reflexivity|].
    repeat match goal with
           | |- context [lib ?c l1] => destruct (lib c l1)
           end.
    cbn. unfold JNI.NewInteger.
    repeat split; intros E; discriminate E.
  - split; [right; reflexivity|]. repeat split; reflexivity.
Qed.
